(** * line-weather-bot: a shallow embedding of [app.py]

    The program is a LINE webhook: [callback] verifies the signature of a
    POST, the SDK dispatches every text message to [handle_message], which
    validates a 4-letter ICAO code, calls [get_aviation_weather] (two
    sequential HTTP GETs to the NOAA text mirror) and answers through the
    reply API.

    Modelling choices.
    - A Python [str] is a sequence of Unicode code points: [str := list N].
      Literals are written in UTF-8 and decoded by [u8].
    - A Python value that is either [None] or a [str] is [pyval := option str].
    - The outside world (the mirror, the reply API) is an abstract state
      [World] with two oracles; effectful code is written in the monad [M],
      which threads the world, collects the outbound calls in a trace and
      may raise an exception.
    - Console output ([print]) is not part of the model. *)

From Stdlib Require Import List NArith ZArith Bool String Ascii Lia Setoid.
Import ListNotations.

Set Implicit Arguments.

(* ================================================================== *)
(** ** Python strings *)
(* ================================================================== *)

Module PyStr.

Local Open Scope N_scope.

(** A code point. *)
Definition codepoint := N.

(** A Python [str]. *)
Definition str := list codepoint.

(** UTF-8 decoding, used only to write literals.  Ill-formed input is cut
    short; every literal of this file is well-formed. *)
Fixpoint utf8_decode (bs : list N) : str :=
  match bs with
  | [] => []
  | b0 :: r0 =>
    if b0 <? 128 then b0 :: utf8_decode r0
    else if b0 <? 224 then
      match r0 with
      | b1 :: r1 => ((b0 - 192) * 64 + (b1 - 128)) :: utf8_decode r1
      | _ => []
      end
    else if b0 <? 240 then
      match r0 with
      | b1 :: b2 :: r2 =>
        ((b0 - 224) * 4096 + (b1 - 128) * 64 + (b2 - 128)) :: utf8_decode r2
      | _ => []
      end
    else
      match r0 with
      | b1 :: b2 :: b3 :: r3 =>
        ((b0 - 240) * 262144 + (b1 - 128) * 4096 + (b2 - 128) * 64 + (b3 - 128))
          :: utf8_decode r3
      | _ => []
      end
  end.

Definition u8 (s : string) : str :=
  utf8_decode (map N_of_ascii (list_ascii_of_string s)).

(** The line feed, ['\n']. *)
Definition LF : codepoint := 10.

(** [bool(s)] for a [str]: non-empty. *)
Definition nonempty (s : str) : bool :=
  match s with [] => false | _ :: _ => true end.

(** [str.isspace] on one code point, as CPython decides it
    ([_Py_ascii_whitespace] below 128, [_PyUnicode_IsWhitespace] above). *)
Definition isspace (c : codepoint) : bool :=
  ((9 <=? c) && (c <=? 13)) || ((28 <=? c) && (c <=? 32))
  || (c =? 133) || (c =? 160) || (c =? 5760)
  || ((8192 <=? c) && (c <=? 8202))
  || (c =? 8232) || (c =? 8233) || (c =? 8239) || (c =? 8287) || (c =? 12288).

(** [s.lstrip()]. *)
Fixpoint lstrip (s : str) : str :=
  match s with
  | [] => []
  | c :: r => if isspace c then lstrip r else s
  end.

(** [s.rstrip()]: drop the trailing white space. *)
Fixpoint rstrip (s : str) : str :=
  match s with
  | [] => []
  | c :: r =>
    match rstrip r with
    | [] => if isspace c then [] else [c]
    | r' => c :: r'
    end
  end.

(** [s.strip()]. *)
Definition strip (s : str) : str := rstrip (lstrip s).

(** [s.split(sep)] for a one-character separator: the pieces between the
    separators; never the empty list. *)
Fixpoint split (sep : codepoint) (s : str) : list str :=
  match s with
  | [] => [[]]
  | c :: r =>
    if c =? sep then [] :: split sep r
    else
      match split sep r with
      | [] => [[c]]
      | l :: ls => (c :: l) :: ls
      end
  end.

(** [sep.join(parts)]. *)
Fixpoint join (sep : str) (parts : list str) : str :=
  match parts with
  | [] => []
  | [p] => p
  | p :: ps => p ++ sep ++ join sep ps
  end.

(** Upper-casing of an ASCII code point. *)
Definition ascii_upper (c : codepoint) : codepoint :=
  if (97 <=? c) && (c <=? 122) then c - 32 else c.

Definition is_ascii_letter (c : codepoint) : bool :=
  ((65 <=? c) && (c <=? 90)) || ((97 <=? c) && (c <=? 122)).

Section Upper.

(** The full upper-case mapping of the Unicode character database for the
    code points from 128 on (one code point may map to several).  The
    table belongs to the Python runtime; the program is verified for every
    such table. *)
Variable unicode_upper : codepoint -> list codepoint.

Definition to_upper_full (c : codepoint) : list codepoint :=
  if c <? 128 then [ascii_upper c] else unicode_upper c.

(** [s.upper()]. *)
Definition upper (s : str) : str := flat_map to_upper_full s.

End Upper.

End PyStr.

(* ================================================================== *)
(** ** The fragment of [re] that the validator uses *)
(* ================================================================== *)

Module Re.

Import PyStr.
Local Open Scope N_scope.

(** A pattern is a sequence of items: the anchors [^] and [$], and a
    character range repeated a fixed number of times, [[lo-hi]{count}]. *)
Inductive item : Type :=
| Caret
| Dollar
| Class (lo hi : codepoint) (count : nat).

Definition pattern := list item.

(** Consume exactly [n] characters of the range. *)
Fixpoint take_class (lo hi : codepoint) (n : nat) (s : str) : option str :=
  match n with
  | O => Some s
  | S n' =>
    match s with
    | c :: r => if (lo <=? c) && (c <=? hi) then take_class lo hi n' r else None
    | [] => None
    end
  end.

(** Match the items at the current position ([at_start]: nothing consumed
    yet) and return the rest of the input.  Without [re.MULTILINE], [^]
    holds at the start only and [$] at the end or before a final line
    feed. *)
Fixpoint match_items (p : pattern) (at_start : bool) (s : str) : option str :=
  match p with
  | [] => Some s
  | Caret :: p' => if at_start then match_items p' at_start s else None
  | Dollar :: p' =>
    match s with
    | [] => match_items p' at_start s
    | [c] => if c =? LF then match_items p' at_start s else None
    | _ => None
    end
  | Class lo hi n :: p' =>
    match take_class lo hi n s with
    | Some s' => match_items p' (at_start && Nat.eqb n 0) s'
    | None => None
    end
  end.

(** [re.fullmatch(p, s)] as a truth value: the match must end at the end of
    the string. *)
Definition fullmatch (p : pattern) (s : str) : bool :=
  match match_items p true s with
  | Some [] => true
  | _ => false
  end.

End Re.

(* ================================================================== *)
(** ** The outside world and the libraries *)
(* ================================================================== *)

Module Runtime.

Import PyStr.

(** [requests.Response]: what the program reads of it. *)
Record Response : Type := mkResponse {
  status_code : Z;
  text : str
}.

(** A text message event of the webhook. *)
Record TextMessageEvent : Type := mkTextEvent {
  reply_token : str;
  message_text : str
}.

(** The events of an envelope: text messages and everything else. *)
Inductive WebhookEvent : Type :=
| TextEvent (e : TextMessageEvent)
| OtherEvent.

(** The exceptions the program meets. *)
Inductive exception : Type :=
| HTTPError (response : Response)      (* requests.exceptions.HTTPError *)
| InvalidSignatureError                (* linebot.exceptions *)
| HTTPException (code : Z)             (* werkzeug's, raised by flask.abort *)
| OtherError (class_name : str).       (* any other subclass of Exception *)

(** [e.__class__.__name__]; [abort(400)] raises the subclass [BadRequest]. *)
Definition class_name_of (e : exception) : str :=
  match e with
  | HTTPError _ => u8 "HTTPError"
  | InvalidSignatureError => u8 "InvalidSignatureError"
  | HTTPException code =>
    if (code =? 400)%Z then u8 "BadRequest" else u8 "HTTPException"
  | OtherError n => n
  end.

(** The outbound calls, in the order they are made. *)
Inductive Event : Type :=
| EvGet (url : str) (headers : list (str * str)) (timeout : Z)
| EvReply (token : str) (reply_text : str).

Definition is_get (e : Event) : bool :=
  match e with EvGet _ _ _ => true | EvReply _ _ => false end.

(** What the program runs against. *)
Record Platform : Type := mkPlatform {
  World : Type;
  (** the upper-case table of the Python runtime, from code point 128 on *)
  unicode_upper : codepoint -> list codepoint;
  (** the network answering a GET: a response, or the class name of the
      exception [requests.get] raises (Timeout, ConnectionError, ...) *)
  http_get : str -> list (str * str) -> Z -> World -> (Response + str) * World;
  (** the reply API: accepted, or the class name of the exception raised *)
  reply_api : str -> str -> World -> option str * World;
  (** [LINE_CHANNEL_SECRET] *)
  channel_secret : str;
  (** the SDK's [SignatureValidator.validate], given secret, body, signature *)
  validate_signature : str -> str -> str -> bool;
  (** the SDK's envelope parser: the events, or the class name of the
      exception raised on a malformed body *)
  parse_events : str -> list WebhookEvent + str
}.

(** The statuses [raise_for_status] turns into an [HTTPError]: the client
    errors 400-499 and the server errors 500-599. *)
Definition is_error_status (s : Z) : bool :=
  ((400 <=? s) && (s <? 600))%Z.

(** The statuses of the 2xx class. *)
Definition is_2xx (s : Z) : bool :=
  ((200 <=? s) && (s <? 300))%Z.

(** The result of a computation: a value or a raised exception. *)
Inductive result (A : Type) : Type :=
| Ok (a : A)
| Raise (e : exception).

Arguments Raise {A} e.

Section Monad.

Variable P : Platform.

(** Computations: world in; result, world and trace out. *)
Definition M (A : Type) : Type := World P -> result A * World P * list Event.

Definition ret {A} (a : A) : M A := fun w => (Ok a, w, []).

Definition raise {A} (e : exception) : M A := fun w => (Raise e, w, []).

Definition bind {A B} (m : M A) (k : A -> M B) : M B := fun w =>
  match m w with
  | (Ok a, w1, t1) =>
    match k a w1 with
    | (r, w2, t2) => (r, w2, t1 ++ t2)
    end
  | (Raise e, w1, t1) => (Raise e, w1, t1)
  end.

(** [try: body except ...: handler]: [handler e] is [None] when no
    [except] clause matches [e], which then propagates. *)
Definition try_except {A} (body : M A) (handler : exception -> option (M A)) : M A :=
  fun w =>
    match body w with
    | (Ok a, w1, t1) => (Ok a, w1, t1)
    | (Raise e, w1, t1) =>
      match handler e with
      | Some h =>
        match h w1 with
        | (r, w2, t2) => (r, w2, t1 ++ t2)
        end
      | None => (Raise e, w1, t1)
      end
    end.

(** [for x in xs: body(x)]. *)
Fixpoint for_each {A} (xs : list A) (body : A -> M unit) : M unit :=
  match xs with
  | [] => ret tt
  | x :: xs' => bind (body x) (fun _ => for_each xs' body)
  end.

Definition outcome {A} (r : result A * World P * list Event) : result A := fst (fst r).
Definition world_after {A} (r : result A * World P * list Event) : World P := snd (fst r).
Definition trace {A} (r : result A * World P * list Event) : list Event := snd r.

(** [requests.get(url, headers=headers, timeout=timeout)]. *)
Definition requests_get (url : str) (headers : list (str * str)) (timeout : Z)
  : M Response :=
  fun w =>
    match http_get P url headers timeout w with
    | (inl r, w1) => (Ok r, w1, [EvGet url headers timeout])
    | (inr cls, w1) => (Raise (OtherError cls), w1, [EvGet url headers timeout])
    end.

(** [response.raise_for_status()]: [HTTPError] for a 4xx or 5xx status. *)
Definition raise_for_status (r : Response) : M unit :=
  if is_error_status (status_code r)
  then raise (HTTPError r)
  else ret tt.

(** [line_bot_api.reply_message(token, TextSendMessage(text=text))]. *)
Definition reply_message (token text : str) : M unit :=
  fun w =>
    match reply_api P token text w with
    | (None, w1) => (Ok tt, w1, [EvReply token text])
    | (Some cls, w1) => (Raise (OtherError cls), w1, [EvReply token text])
    end.

End Monad.

Arguments ret {P A} a.
Arguments raise {P A} e.
Arguments outcome {P A} r.
Arguments world_after {P A} r.
Arguments trace {P A} r.

End Runtime.

(* ================================================================== *)
(** ** app.py *)
(* ================================================================== *)

Module App.

Import PyStr Runtime.

Notation "x <- m ;; k" := (bind m (fun x => k))
  (at level 61, m at next level, right associativity).
Notation "m ;;; k" := (bind m (fun _ => k))
  (at level 61, right associativity).

(** A Python value that is [None] or a [str]. *)
Definition pyval := option str.

(** [bool(v)]. *)
Definition truthy (v : pyval) : bool :=
  match v with
  | None => false
  | Some s => nonempty s
  end.

(** [f"{v}"]. *)
Definition py_format (v : pyval) : str :=
  match v with
  | None => u8 "None"
  | Some s => s
  end.

(** [lines[1] if len(lines) > 1 else ""]: the assignment guarded by
    [if len(lines) > 1] over the initial value [""]. *)
Definition line_1_or_empty (lines : list str) : str :=
  if (1 <? List.length lines)%nat then List.nth 1 lines [] else [].

(** The two URLs of lines 31-32. *)
Definition METAR_URL (icao_code : str) : str :=
  u8 "https://tgftp.nws.noaa.gov/data/observations/metar/stations/"
    ++ icao_code ++ u8 ".TXT".

Definition TAF_URL (icao_code : str) : str :=
  u8 "https://tgftp.nws.noaa.gov/data/forecasts/taf/stations/"
    ++ icao_code ++ u8 ".TXT".

(** The [headers] dictionary of lines 35-37. *)
Definition headers : list (str * str) :=
  [(u8 "User-Agent", u8 "AviationWeatherBot (Python Requests)")].

(** The four failure messages of [get_aviation_weather]. *)
Definition msg_no_data (icao_code : str) : str :=
  u8 "找不到 " ++ icao_code ++ u8 " 的 METAR/TAF 資料。請確認代碼是否正確。".

Definition msg_404 (icao_code : str) : str :=
  u8 "找不到 " ++ icao_code
    ++ u8 " 的氣象報告。該 ICAO 代碼可能沒有提供 METAR/TAF 報告。".

Definition msg_http_error (cls : str) : str :=
  u8 "連線至氣象 API 時發生錯誤：" ++ cls.

Definition msg_unexpected (cls : str) : str :=
  u8 "處理氣象資料時發生未預期的錯誤：" ++ cls.

(** The pattern [r'^[A-Z]{4}$']. *)
Definition ICAO_PATTERN : Re.pattern :=
  [Re.Caret; Re.Class 65%N 90%N 4; Re.Dollar].

(** The reply of a rejected input, lines 97-100. *)
Definition FORMAT_ERROR_REPLY : str :=
  u8 "⚠️ 格式錯誤！" ++ [LF]
    ++ u8 "請輸入一個 **4 碼 ICAO 機場代碼**（例如：**RCTP**、**RJAA**、**KLAX**）。".

(** The pieces of the report, lines 115-130. *)
Definition report_header (icao_code : str) : str :=
  u8 "✈️ **" ++ icao_code ++ u8 "** 航空氣象報告 (Aviation Weather Report)" ++ [LF].

Definition METAR_TITLE : str := u8 "--- 觀測報告 (METAR) ---".

Definition TAF_TITLE : str := [LF] ++ u8 "--- 預報 (TAF) ---".

Definition metar_missing (icao_code : str) : str :=
  u8 "❌ 找不到 " ++ icao_code ++ u8 " 的最新 METAR 資料。".

Definition taf_missing (icao_code : str) : str :=
  u8 "❌ 找不到 " ++ icao_code ++ u8 " 的最新 TAF 資料。".

(** The wrapper of the [else] branch, line 134. *)
Definition query_failed (taf : pyval) : str :=
  u8 "🚨 查詢失敗：" ++ [LF] ++ py_format taf.

(** Step 3 of [handle_message], lines 113-134: [final_reply] from
    [icao_code], [metar] and [taf]. *)
Definition format_reply (icao_code : str) (metar taf : pyval) : str :=
  if truthy metar || truthy taf then
    let response_lines := [report_header icao_code] in
    let response_lines := response_lines ++ [METAR_TITLE] in
    let response_lines :=
      if truthy metar then response_lines ++ [py_format metar]
      else response_lines ++ [metar_missing icao_code] in
    let response_lines := response_lines ++ [TAF_TITLE] in
    let response_lines :=
      if truthy taf then response_lines ++ [py_format taf]
      else response_lines ++ [taf_missing icao_code] in
    join [LF] response_lines
  else
    query_failed taf.

(** The HTTP request as [callback] reads it. *)
Record Request : Type := mkRequest {
  x_line_signature : option str;   (* the X-Line-Signature header *)
  data : str                       (* the body, as text *)
}.

(** What Flask sends back. *)
Inductive HttpReply : Type :=
| Reply200 (body : str)
| ErrorPage (status : Z).

Definition http_status (r : HttpReply) : Z :=
  match r with
  | Reply200 _ => 200%Z
  | ErrorPage s => s
  end.

Section Program.

Variable P : Platform.

(** [get_aviation_weather], lines 26-74. *)
Definition get_aviation_weather (icao_code : str) : M P (pyval * pyval) :=
  try_except
    (metar_response <- requests_get P (METAR_URL icao_code) headers 10%Z ;;
     raise_for_status P metar_response ;;;
     let metar_lines := split LF (strip (text metar_response)) in
     let metar_data := line_1_or_empty metar_lines in
     taf_response <- requests_get P (TAF_URL icao_code) headers 10%Z ;;
     raise_for_status P taf_response ;;;
     let taf_lines := split LF (strip (text taf_response)) in
     let taf_data := line_1_or_empty taf_lines in
     if negb (nonempty metar_data) && negb (nonempty taf_data)
     then ret (None, Some (msg_no_data icao_code))
     else ret (Some metar_data, Some taf_data))
    (fun e =>
       match e with
       | HTTPError response =>
         if (status_code response =? 404)%Z
         then Some (ret (None, Some (msg_404 icao_code)))
         else Some (ret (None, Some (msg_http_error (class_name_of e))))
       | _ => Some (ret (None, Some (msg_unexpected (class_name_of e))))
       end).

(** [handle_message], lines 91-140. *)
Definition handle_message (event : TextMessageEvent) : M P unit :=
  let user_input := strip (message_text event) in
  if negb (Re.fullmatch ICAO_PATTERN (upper (unicode_upper P) user_input)) then
    let reply_text := FORMAT_ERROR_REPLY in
    reply_message P (reply_token event) reply_text
  else
    let icao_code := upper (unicode_upper P) user_input in
    r <- get_aviation_weather icao_code ;;
    let final_reply := format_reply icao_code (fst r) (snd r) in
    reply_message P (reply_token event) final_reply.

(** [handler.handle(body, signature)] of the SDK: check the signature,
    parse the envelope, call the handler registered for text messages on
    every text message event and skip the other events. *)
Definition handler_handle (body signature : str) : M P unit :=
  if negb (validate_signature P (channel_secret P) body signature)
  then raise InvalidSignatureError
  else
    match parse_events P body with
    | inr cls => raise (OtherError cls)
    | inl events =>
      for_each events (fun ev =>
        match ev with
        | TextEvent e => handle_message e
        | OtherEvent => ret tt
        end)
    end.

(** [abort(code)]. *)
Definition abort {A} (code : Z) : M P A := raise (HTTPException code).

(** [callback], lines 77-88. *)
Definition callback (request : Request) : M P str :=
  let signature :=
    match x_line_signature request with Some s => s | None => [] end in
  let body := data request in
  try_except (handler_handle body signature)
    (fun e =>
       match e with
       | InvalidSignatureError => Some (abort 400%Z)
       | _ => None
       end) ;;;
  ret (u8 "OK").

(** Flask around the view: the returned text is the body of a 200, an
    [HTTPException] becomes its error page and any other exception the
    500 page. *)
Definition serve (request : Request) (w : World P)
  : HttpReply * World P * list Event :=
  match callback request w with
  | (Ok body, w1, t) => (Reply200 body, w1, t)
  | (Raise (HTTPException code), w1, t) => (ErrorPage code, w1, t)
  | (Raise _, w1, t) => (ErrorPage 500%Z, w1, t)
  end.

End Program.

End App.

(* ================================================================== *)
(** ** A scripted platform, to run the program on concrete inputs *)
(* ================================================================== *)

Module Script.

Import PyStr Runtime App.
Local Open Scope N_scope.

(** The world is a script: the outcomes of the GETs to come and of the
    reply calls to come. *)
Definition world : Type := list (Response + str) * list (option str).

(** A GET takes the next outcome; when the script is over the connection
    fails. *)
Definition script_get (url : str) (hs : list (str * str)) (timeout : Z) (w : world)
  : (Response + str) * world :=
  match fst w with
  | o :: rest => (o, (rest, snd w))
  | [] => (inr (u8 "ConnectionError"), w)
  end.

(** A reply takes the next outcome; when the script is over it is accepted. *)
Definition script_reply (token reply_text : str) (w : world) : option str * world :=
  match snd w with
  | o :: rest => (o, (fst w, rest))
  | [] => (None, w)
  end.

(** Two entries of the upper-case table: the long s and the sharp s. *)
Definition sample_upper (c : codepoint) : list codepoint :=
  if c =? 383 then [83] else if c =? 223 then [83; 83] else [c].

Fixpoint str_eqb (a b : str) : bool :=
  match a, b with
  | [], [] => true
  | x :: a', y :: b' => (x =? y) && str_eqb a' b'
  | _, _ => false
  end.

(** A stand-in for the keyed hash: the signature is the secret followed by
    the body. *)
Definition toy_validate (secret body signature : str) : bool :=
  str_eqb signature (secret ++ body).

(** A stand-in for the envelope parser: the empty body is malformed, any
    other body is one text message whose text is the body. *)
Definition toy_parse (body : str) : list WebhookEvent + str :=
  match body with
  | [] => inr (u8 "JSONDecodeError")
  | _ => inl [TextEvent (mkTextEvent (u8 "token") body)]
  end.

Definition platform : Platform :=
  {| World := world;
     unicode_upper := sample_upper;
     http_get := script_get;
     reply_api := script_reply;
     channel_secret := u8 "secret";
     validate_signature := toy_validate;
     parse_events := toy_parse |}.

(** The same platform with a reply API that accepts every call. *)
Definition accepting : Platform :=
  {| World := world;
     unicode_upper := sample_upper;
     http_get := script_get;
     reply_api := fun _ _ w => (None, w);
     channel_secret := u8 "secret";
     validate_signature := toy_validate;
     parse_events := toy_parse |}.

Definition ok (body : str) : Response + str := inl (mkResponse 200 body).
Definition status (code : Z) : Response + str := inl (mkResponse code []).

(** Bodies as the mirror serves them: a time stamp, then the report. *)
Definition metar_body : str :=
  u8 "2024/01/01 00:00" ++ [LF] ++ u8 "RCTP 010000Z 05010KT 9999 FEW020 18/12 Q1020" ++ [LF].
Definition metar_line : str := u8 "RCTP 010000Z 05010KT 9999 FEW020 18/12 Q1020".

Definition taf_body : str :=
  u8 "2024/01/01 00:00" ++ [LF] ++ u8 "TAF RCTP 010000Z 0100/0206 05010KT 9999 FEW020" ++ [LF].
Definition taf_line : str := u8 "TAF RCTP 010000Z 0100/0206 05010KT 9999 FEW020".

(** A body with the time stamp only. *)
Definition header_only : str := u8 "2024/01/01 00:00" ++ [LF].

(** A body that starts with an empty line. *)
Definition blank_first_body : str := [LF] ++ metar_body.

Definition RCTP : str := u8 "RCTP".

(** A text message as a user types it, and one that is no code. *)
Definition typed_code : TextMessageEvent := mkTextEvent (u8 "token") (u8 " rctp ").
Definition chatter : TextMessageEvent := mkTextEvent (u8 "token") (u8 "hello").

(** Four long s, U+017F. *)
Definition long_s_text : TextMessageEvent :=
  mkTextEvent (u8 "token") (u8 "ſſſſ").

(** A signed request carrying [chatter]. *)
Definition signed_chatter : Request :=
  mkRequest (Some (u8 "secrethello")) (u8 "hello").

(** The same body with a wrong signature. *)
Definition forged_chatter : Request :=
  mkRequest (Some (u8 "guess")) (u8 "hello").

(** A world in which every GET fails and the single reply is accepted. *)
Definition quiet : world := ([], []).

(** A world in which both bodies carry the time stamp only. *)
Definition no_data : world := ([ok header_only; ok header_only], []).

(** Two worlds that serve the same bulletins in different bodies. *)
Definition served : world := ([ok metar_body; ok taf_body], []).
Definition served_padded : world :=
  ([inl (mkResponse 203 ([LF] ++ metar_body)); ok (taf_body ++ u8 "  ")],
   [Some (u8 "LineBotApiError")]).

(** An envelope parser for a fixed envelope: a follow event, a text message
    that is no code, a sticker, a text message with a code. *)
Definition mixed_events : list WebhookEvent :=
  [OtherEvent; TextEvent (mkTextEvent (u8 "t1") (u8 "hello")); OtherEvent;
   TextEvent (mkTextEvent (u8 "t2") (u8 "rjaa"))].

(** The scripted platform with the parser of [mixed_events]. *)
Definition mixed : Platform :=
  {| World := world;
     unicode_upper := sample_upper;
     http_get := script_get;
     reply_api := script_reply;
     channel_secret := u8 "secret";
     validate_signature := toy_validate;
     parse_events := fun _ => inl mixed_events |}.

(** The accepting platform with the parser of [mixed_events]. *)
Definition mixed_accepting : Platform :=
  {| World := world;
     unicode_upper := sample_upper;
     http_get := script_get;
     reply_api := fun _ _ w => (None, w);
     channel_secret := u8 "secret";
     validate_signature := toy_validate;
     parse_events := fun _ => inl mixed_events |}.

(** The accepting platform with a parser that finds no text message. *)
Definition silent : Platform :=
  {| World := world;
     unicode_upper := sample_upper;
     http_get := script_get;
     reply_api := fun _ _ w => (None, w);
     channel_secret := u8 "secret";
     validate_signature := toy_validate;
     parse_events := fun _ => inl [OtherEvent; OtherEvent] |}.

(** A forecast as the mirror serves it: a time stamp and a report of
    several lines. *)
Definition taf_stamp : str := u8 "2024/01/01 00:00".
Definition taf_first_line : str := u8 "TAF RCTP 010000Z 0100/0206 05010KT 9999 FEW020".
Definition taf_more_lines : str :=
  u8 "      TEMPO 0106/0112 4000 RA BKN012" ++ [LF]
    ++ u8 "      BECMG 0118/0120 03015KT" ++ [LF].
Definition taf_long_body : str :=
  taf_stamp ++ LF :: taf_first_line ++ LF :: taf_more_lines.

(** A world that serves the observation and the long forecast. *)
Definition served_long : world := ([ok metar_body; ok taf_long_body], []).

(** A world that answers 304 and 100 with the usual bodies. *)
Definition served_odd_statuses : world :=
  ([inl (mkResponse 304 metar_body); inl (mkResponse 100 taf_body)], []).

(** A signed request with an empty body, which [toy_parse] refuses. *)
Definition signed_empty : Request := mkRequest (Some (u8 "secret")) [].

(** A world in which the reply API refuses the first reply. *)
Definition reply_refused : world := ([], [Some (u8 "LineBotApiError")]).

End Script.

(* ================================================================== *)
(** ** Properties *)
(* ================================================================== *)

Module Properties.

Import PyStr Runtime App.

Arguments u8 : simpl never.

(** *** Vocabulary of the statements *)

(** The failure messages [get_aviation_weather] can return for [icao]. *)
Definition failure_message (icao msg : str) : Prop :=
  msg = msg_no_data icao \/ msg = msg_404 icao
  \/ (exists cls, msg = msg_http_error cls)
  \/ (exists cls, msg = msg_unexpected cls).

(** The bulletin the fetcher takes from a body: [line_1_or_empty] of the
    lines of the trimmed body. *)
Definition bulletin_of (body : str) : str :=
  line_1_or_empty (split LF (strip body)).

(** The number of separators of a string. *)
Definition seps (sep : codepoint) (s : str) : nat :=
  List.length (filter (fun c => (c =? sep)%N) s).

(** Whether the fetcher goes on to the forecast after this outcome of the
    observation request: a response whose status is no error. *)
Definition goes_on (o : Response + str) : bool :=
  match o with
  | inl r => negb (is_error_status (status_code r))
  | inr _ => false
  end.

(** The texts of the reply calls of a trace. *)
Definition replies (t : list Event) : list str :=
  flat_map (fun e => match e with EvReply _ x => [x] | EvGet _ _ _ => [] end) t.

(** The GET requests of a trace. *)
Definition fetches (t : list Event) : list Event := filter is_get t.

(** A validated identifier: four letters A-Z. *)
Definition icao_code_ok (id : str) : Prop :=
  List.length id = 4%nat
  /\ forallb (fun c => (65 <=? c) && (c <=? 90))%N id = true.

(** The reply tokens of the reply calls of a trace, in order. *)
Definition reply_tokens (t : list Event) : list str :=
  flat_map (fun e => match e with EvReply tok _ => [tok] | EvGet _ _ _ => [] end) t.

(** The text message events of an envelope, in order. *)
Definition text_events (events : list WebhookEvent) : list TextMessageEvent :=
  flat_map (fun ev => match ev with TextEvent e => [e] | OtherEvent => [] end)
           events.

(** *** The runs of [get_aviation_weather] *)

Section Runs.

Variable P : Platform.
Variable icao : str.
Variable w : World P.

Let obs := EvGet (METAR_URL icao) headers 10.
Let fc := EvGet (TAF_URL icao) headers 10.

(** The observation request raises. *)
Lemma run_obs_raises c w1 :
  http_get P (METAR_URL icao) headers 10 w = (inr c, w1) ->
  get_aviation_weather P icao w
  = (Ok (None, Some (msg_unexpected c)), w1, [obs]).
Proof.
  intros H. unfold get_aviation_weather, try_except, bind, requests_get.
  rewrite H. reflexivity.
Qed.

(** The observation request is answered with an error status. *)
Lemma run_obs_error r1 w1 :
  http_get P (METAR_URL icao) headers 10 w = (inl r1, w1) ->
  is_error_status (status_code r1) = true ->
  get_aviation_weather P icao w
  = (Ok (None, Some (if (status_code r1 =? 404)%Z then msg_404 icao
                     else msg_http_error (u8 "HTTPError"))), w1, [obs]).
Proof.
  intros H E. unfold get_aviation_weather, try_except, bind, requests_get.
  rewrite H. unfold raise_for_status. rewrite E. cbn [raise ret app].
  destruct (status_code r1 =? 404)%Z; reflexivity.
Qed.

(** The forecast request raises. *)
Lemma run_fc_raises r1 w1 c w2 :
  http_get P (METAR_URL icao) headers 10 w = (inl r1, w1) ->
  is_error_status (status_code r1) = false ->
  http_get P (TAF_URL icao) headers 10 w1 = (inr c, w2) ->
  get_aviation_weather P icao w
  = (Ok (None, Some (msg_unexpected c)), w2, [obs; fc]).
Proof.
  intros H E H2. unfold get_aviation_weather, try_except, bind, requests_get.
  rewrite H. unfold raise_for_status. rewrite E. cbn [raise ret app].
  rewrite H2. reflexivity.
Qed.

(** The forecast request is answered with an error status. *)
Lemma run_fc_error r1 w1 r2 w2 :
  http_get P (METAR_URL icao) headers 10 w = (inl r1, w1) ->
  is_error_status (status_code r1) = false ->
  http_get P (TAF_URL icao) headers 10 w1 = (inl r2, w2) ->
  is_error_status (status_code r2) = true ->
  get_aviation_weather P icao w
  = (Ok (None, Some (if (status_code r2 =? 404)%Z then msg_404 icao
                     else msg_http_error (u8 "HTTPError"))), w2, [obs; fc]).
Proof.
  intros H E H2 E2. unfold get_aviation_weather, try_except, bind, requests_get.
  rewrite H. unfold raise_for_status. rewrite E. cbn [raise ret app].
  rewrite H2, E2. cbn [raise ret app].
  destruct (status_code r2 =? 404)%Z; reflexivity.
Qed.

(** Both requests are answered without an error status. *)
Lemma run_both_answered r1 w1 r2 w2 :
  http_get P (METAR_URL icao) headers 10 w = (inl r1, w1) ->
  is_error_status (status_code r1) = false ->
  http_get P (TAF_URL icao) headers 10 w1 = (inl r2, w2) ->
  is_error_status (status_code r2) = false ->
  let metar_data := line_1_or_empty (split LF (strip (text r1))) in
  let taf_data := line_1_or_empty (split LF (strip (text r2))) in
  get_aviation_weather P icao w
  = (Ok (if negb (nonempty metar_data) && negb (nonempty taf_data)
         then (None, Some (msg_no_data icao))
         else (Some metar_data, Some taf_data)), w2, [obs; fc]).
Proof.
  intros H E H2 E2 metar_data taf_data.
  unfold get_aviation_weather, try_except, bind, requests_get.
  rewrite H. unfold raise_for_status. rewrite E. cbn [raise ret app].
  rewrite H2, E2. cbn [raise ret app].
  fold metar_data taf_data.
  destruct (negb (nonempty metar_data) && negb (nonempty taf_data)); reflexivity.
Qed.

End Runs.

(** *** Every run returns, and returns something truthy *)

Lemma nonempty_msg_no_data icao : nonempty (msg_no_data icao) = true.
Proof. reflexivity. Qed.

Lemma nonempty_msg_404 icao : nonempty (msg_404 icao) = true.
Proof. reflexivity. Qed.

Lemma nonempty_msg_http_error cls : nonempty (msg_http_error cls) = true.
Proof. reflexivity. Qed.

Lemma nonempty_msg_unexpected cls : nonempty (msg_unexpected cls) = true.
Proof. reflexivity. Qed.

Create HintDb msgs.
#[local] Hint Resolve nonempty_msg_no_data nonempty_msg_404
  nonempty_msg_http_error nonempty_msg_unexpected : msgs.

Lemma fm_no_data icao : failure_message icao (msg_no_data icao).
Proof. left. reflexivity. Qed.

Lemma fm_404 icao : failure_message icao (msg_404 icao).
Proof. right. left. reflexivity. Qed.

Lemma fm_http_error icao cls : failure_message icao (msg_http_error cls).
Proof. right. right. left. exists cls. reflexivity. Qed.

Lemma fm_unexpected icao cls : failure_message icao (msg_unexpected cls).
Proof. right. right. right. exists cls. reflexivity. Qed.

Lemma failure_message_nonempty icao msg :
  failure_message icao msg -> nonempty msg = true.
Proof.
  intros [-> | [-> | [[c ->] | [c ->]]]]; auto with msgs.
Qed.

(** A run never raises; it starts with the observation request; its value
    is a pair of strings or [None] with a failure message. *)
Lemma run_shape (P : Platform) (icao : str) (w : World P) :
  exists (m : pyval) (t : str) (w' : World P) (rest : list Event),
    get_aviation_weather P icao w
    = (Ok (m, Some t), w', EvGet (METAR_URL icao) headers 10 :: rest)
    /\ ((m = None /\ failure_message icao t)
        \/ (exists d, m = Some d /\ nonempty d || nonempty t = true)).
Proof.
  destruct (http_get P (METAR_URL icao) headers 10 w) as [[r1 | c] w1] eqn:H1.
  - destruct (is_error_status (status_code r1)) eqn:E1.
    + rewrite (run_obs_error _ _ _ H1 E1). do 4 eexists. split; [reflexivity |].
      left. split; [reflexivity |].
      destruct (status_code r1 =? 404)%Z; [apply fm_404 | apply fm_http_error].
    + destruct (http_get P (TAF_URL icao) headers 10 w1) as [[r2 | c] w2] eqn:H2.
      * destruct (is_error_status (status_code r2)) eqn:E2.
        -- rewrite (run_fc_error _ _ _ H1 E1 H2 E2). do 4 eexists.
           split; [reflexivity |]. left. split; [reflexivity |].
           destruct (status_code r2 =? 404)%Z; [apply fm_404 | apply fm_http_error].
        -- rewrite (run_both_answered _ _ _ H1 E1 H2 E2).
           destruct (negb (nonempty _) && negb (nonempty _)) eqn:B.
           ++ do 4 eexists. split; [reflexivity |]. left.
              split; [reflexivity | apply fm_no_data].
           ++ do 4 eexists. split; [reflexivity |]. right. eexists.
              split; [reflexivity |].
              rewrite <- negb_orb in B. apply negb_false_iff in B. exact B.
      * rewrite (run_fc_raises _ _ _ H1 E1 H2). do 4 eexists.
        split; [reflexivity |]. left. split; [reflexivity | apply fm_unexpected].
  - rewrite (run_obs_raises _ _ _ H1). do 4 eexists. split; [reflexivity |].
    left. split; [reflexivity | apply fm_unexpected].
Qed.

(** C10: every run of [get_aviation_weather] returns a pair; when its first
    component is [None] the second is a non-empty failure message; and in
    every returned pair at least one component is a non-empty string (two
    empty bulletins having been turned into [None] and a message). *)
Theorem get_aviation_weather_pair_invariant (P : Platform) (icao : str) (w : World P) :
  exists (m : pyval) (t : str),
    outcome (get_aviation_weather P icao w) = Ok (m, Some t)
    /\ (m = None -> failure_message icao t /\ t <> [])
    /\ truthy m || truthy (Some t) = true.
Proof.
  destruct (run_shape P icao w) as (m & t & w' & rest & E & Hs).
  exists m, t. rewrite E. split; [reflexivity |].
  destruct Hs as [[-> F] | [d [-> T]]].
  - pose proof (failure_message_nonempty F) as N. split.
    + intros _. split; [exact F |]. intros ->. discriminate.
    + exact N.
  - split; [discriminate | exact T].
Qed.

(** *** Lines of a body *)

Lemma line_1_or_empty_nth (lines : list str) :
  line_1_or_empty lines = nth 1 lines [].
Proof.
  unfold line_1_or_empty.
  destruct lines as [| l0 [| l1 rest]]; reflexivity.
Qed.

Lemma split_length sep s : List.length (split sep s) = S (seps sep s).
Proof.
  unfold seps. induction s as [| c r IH]; [reflexivity |].
  cbn [split filter]. destruct (c =? sep)%N.
  - cbn [List.length]. now rewrite IH.
  - destruct (split sep r) as [| l ls]; [discriminate IH |].
    cbn [List.length] in *. exact IH.
Qed.

Lemma seps_lstrip sep s : (seps sep (lstrip s) <= seps sep s)%nat.
Proof.
  unfold seps. induction s as [| c r IH]; [apply le_n |].
  cbn [lstrip]. destruct (isspace c); [| apply le_n].
  cbn [filter]. destruct (c =? sep)%N; cbn [List.length]; lia.
Qed.

Lemma seps_rstrip sep s : (seps sep (rstrip s) <= seps sep s)%nat.
Proof.
  unfold seps. induction s as [| c r IH]; [apply le_n |].
  cbn [rstrip]. destruct (rstrip r) as [| x r'].
  - destruct (isspace c); cbn [filter];
      destruct (c =? sep)%N; cbn [List.length filter] in *; lia.
  - cbn [filter] in *. destruct (c =? sep)%N; cbn [List.length] in *; lia.
Qed.

Lemma seps_strip sep s : (seps sep (strip s) <= seps sep s)%nat.
Proof.
  unfold strip. etransitivity; [apply seps_rstrip | apply seps_lstrip].
Qed.

(** A body of fewer than two lines has no bulletin. *)
Lemma short_body_no_bulletin body :
  (List.length (split LF body) < 2)%nat -> bulletin_of body = [].
Proof.
  intros H. unfold bulletin_of, line_1_or_empty.
  rewrite split_length in *. pose proof (seps_strip LF body) as L.
  replace (seps LF (strip body)) with 0%nat by lia. reflexivity.
Qed.

Lemma is_2xx_not_error s : is_2xx s = true -> is_error_status s = false.
Proof. unfold is_2xx, is_error_status. lia. Qed.

(** *** Error handling of the fetcher *)




(** C6: when both requests are answered with a 2xx status and neither body
    yields a bulletin, the run returns [None] and the message that names the
    identifier and says that no METAR/TAF data was found. *)
Theorem both_bulletins_empty (P : Platform) (icao : str) (w : World P)
    (r1 r2 : Response) (w1 w2 : World P) :
  http_get P (METAR_URL icao) headers 10 w = (inl r1, w1) ->
  is_2xx (status_code r1) = true ->
  http_get P (TAF_URL icao) headers 10 w1 = (inl r2, w2) ->
  is_2xx (status_code r2) = true ->
  bulletin_of (text r1) = [] ->
  bulletin_of (text r2) = [] ->
  outcome (get_aviation_weather P icao w)
  = Ok (None, Some (u8 "找不到 " ++ icao
                      ++ u8 " 的 METAR/TAF 資料。請確認代碼是否正確。")).
Proof.
  intros H1 S1 H2 S2 B1 B2.
  rewrite (run_both_answered _ _ _ H1 (is_2xx_not_error _ S1)
             H2 (is_2xx_not_error _ S2)).
  unfold bulletin_of in B1, B2. rewrite B1, B2. reflexivity.
Qed.

Lemma both_bulletins_empty_witness :
  outcome (get_aviation_weather Script.platform Script.RCTP
             ([Script.ok Script.header_only; Script.ok []], []))
  = Ok (None, Some (u8 "找不到 " ++ Script.RCTP
                      ++ u8 " 的 METAR/TAF 資料。請確認代碼是否正確。")).
Proof.
  apply (@both_bulletins_empty Script.platform Script.RCTP
           ([Script.ok Script.header_only; Script.ok []], [])
           (mkResponse 200 Script.header_only) (mkResponse 200 [])
           ([Script.ok []], []) ([], [])); reflexivity.
Defined.

(** *** Error statuses and partial results *)

(** C2, as stated, fails: the observation is served with its bulletin and
    the forecast request is answered 404; the run is an overall failure and
    the observation is lost. *)
Lemma forecast_404_discards_observation :
  bulletin_of Script.metar_body = Script.metar_line
  /\ nonempty Script.metar_line = true
  /\ outcome (get_aviation_weather Script.platform Script.RCTP
               ([Script.ok Script.metar_body; Script.status 404], []))
     = Ok (None, Some (msg_404 Script.RCTP))
  /\ outcome (get_aviation_weather Script.platform Script.RCTP
               ([Script.ok Script.metar_body; Script.status 404], []))
     <> Ok (Some Script.metar_line, Some []).
Proof.
  repeat split; try reflexivity. vm_compute. discriminate.
Qed.

(** C2, amended: an error status (4xx or 5xx) on either request makes the
    whole run a failure, [None] with the 404 message or the HTTP error
    message; when both requests are answered without an error status and
    exactly one bulletin is non-empty, the run returns both values, the
    missing one as the empty string. *)
Theorem error_status_fails_partial_result_succeeds
    (P : Platform) (icao : str) (w : World P) (r1 : Response) (w1 : World P) :
  http_get P (METAR_URL icao) headers 10 w = (inl r1, w1) ->
  (is_error_status (status_code r1) = true ->
   outcome (get_aviation_weather P icao w)
   = Ok (None, Some (if (status_code r1 =? 404)%Z then msg_404 icao
                     else msg_http_error (u8 "HTTPError"))))
  /\ (is_error_status (status_code r1) = false ->
      forall r2 w2,
        http_get P (TAF_URL icao) headers 10 w1 = (inl r2, w2) ->
        (is_error_status (status_code r2) = true ->
         outcome (get_aviation_weather P icao w)
         = Ok (None, Some (if (status_code r2 =? 404)%Z then msg_404 icao
                           else msg_http_error (u8 "HTTPError"))))
        /\ (is_error_status (status_code r2) = false ->
            xorb (nonempty (bulletin_of (text r1)))
                 (nonempty (bulletin_of (text r2))) = true ->
            outcome (get_aviation_weather P icao w)
            = Ok (Some (bulletin_of (text r1)), Some (bulletin_of (text r2))))).
Proof.
  intros H1. split.
  - intros E1. now rewrite (run_obs_error _ _ _ H1 E1).
  - intros E1 r2 w2 H2. split.
    + intros E2. now rewrite (run_fc_error _ _ _ H1 E1 H2 E2).
    + intros E2 X. rewrite (run_both_answered _ _ _ H1 E1 H2 E2).
      unfold bulletin_of in *.
      destruct (nonempty (line_1_or_empty (split LF (strip (text r1)))));
        destruct (nonempty (line_1_or_empty (split LF (strip (text r2)))));
        try discriminate X; reflexivity.
Qed.

Lemma error_status_fails_partial_result_succeeds_witness :
  outcome (get_aviation_weather Script.platform Script.RCTP
             ([Script.status 503], []))
  = Ok (None, Some (if (status_code (mkResponse 503 []) =? 404)%Z
                    then msg_404 Script.RCTP
                    else msg_http_error (u8 "HTTPError")))
  /\ outcome (get_aviation_weather Script.platform Script.RCTP
               ([Script.ok Script.metar_body; Script.status 404], []))
     = Ok (None, Some (if (status_code (mkResponse 404 []) =? 404)%Z
                       then msg_404 Script.RCTP
                       else msg_http_error (u8 "HTTPError")))
  /\ outcome (get_aviation_weather Script.platform Script.RCTP
               ([Script.ok Script.metar_body; Script.ok Script.header_only], []))
     = Ok (Some (bulletin_of (text (mkResponse 200 Script.metar_body))),
           Some (bulletin_of (text (mkResponse 200 Script.header_only)))).
Proof.
  split; [| split].
  - exact (proj1 (@error_status_fails_partial_result_succeeds Script.platform
                    Script.RCTP ([Script.status 503], [])
                    (mkResponse 503 []) ([], []) eq_refl) eq_refl).
  - exact (proj1 (proj2 (@error_status_fails_partial_result_succeeds
                    Script.platform Script.RCTP
                    ([Script.ok Script.metar_body; Script.status 404], [])
                    (mkResponse 200 Script.metar_body)
                    ([Script.status 404], []) eq_refl)
             eq_refl (mkResponse 404 []) ([], []) eq_refl) eq_refl).
  - exact (proj2 (proj2 (@error_status_fails_partial_result_succeeds
                    Script.platform Script.RCTP
                    ([Script.ok Script.metar_body; Script.ok Script.header_only], [])
                    (mkResponse 200 Script.metar_body)
                    ([Script.ok Script.header_only], []) eq_refl)
             eq_refl (mkResponse 200 Script.header_only) ([], []) eq_refl)
             eq_refl eq_refl).
Defined.

(** *** The bulletin of a body *)

(** C5, as stated, fails: in a body that starts with an empty line, line 1
    of the line split is the time stamp, and the fetcher returns the line
    after it. *)
Lemma leading_blank_line_shifts_bulletin :
  nth 1 (split LF Script.blank_first_body) [] = u8 "2024/01/01 00:00"
  /\ outcome (get_aviation_weather Script.platform Script.RCTP
               ([Script.ok Script.blank_first_body; Script.ok Script.taf_body], []))
     = Ok (Some Script.metar_line, Some Script.taf_line)
  /\ Script.metar_line <> nth 1 (split LF Script.blank_first_body) [].
Proof.
  repeat split; try reflexivity. vm_compute. discriminate.
Qed.

(** C5, amended: for 2xx responses the bulletin is line 1 of the line split
    of the body with its leading and trailing white space removed, and the
    empty string when there is no such line; a body of fewer than two lines
    gives the empty string; and a one-line observation body with a forecast
    bulletin gives the pair of the empty string and the forecast, not a
    failure. *)
Theorem bulletin_is_line_1_of_trimmed_body
    (P : Platform) (icao : str) (w : World P)
    (r1 r2 : Response) (w1 w2 : World P) :
  http_get P (METAR_URL icao) headers 10 w = (inl r1, w1) ->
  is_2xx (status_code r1) = true ->
  http_get P (TAF_URL icao) headers 10 w1 = (inl r2, w2) ->
  is_2xx (status_code r2) = true ->
  let metar_data := nth 1 (split LF (strip (text r1))) [] in
  let taf_data := nth 1 (split LF (strip (text r2))) [] in
  outcome (get_aviation_weather P icao w)
  = Ok (if negb (nonempty metar_data) && negb (nonempty taf_data)
        then (None, Some (msg_no_data icao))
        else (Some metar_data, Some taf_data))
  /\ ((List.length (split LF (text r1)) < 2)%nat -> metar_data = [])
  /\ ((List.length (split LF (text r2)) < 2)%nat -> taf_data = [])
  /\ ((List.length (split LF (text r1)) < 2)%nat -> taf_data <> [] ->
      outcome (get_aviation_weather P icao w) = Ok (Some [], Some taf_data)).
Proof.
  intros H1 S1 H2 S2 metar_data taf_data.
  assert (R : outcome (get_aviation_weather P icao w)
              = Ok (if negb (nonempty metar_data) && negb (nonempty taf_data)
                    then (None, Some (msg_no_data icao))
                    else (Some metar_data, Some taf_data))).
  { rewrite (run_both_answered _ _ _ H1 (is_2xx_not_error _ S1)
               H2 (is_2xx_not_error _ S2)).
    rewrite !line_1_or_empty_nth. reflexivity. }
  assert (M : (List.length (split LF (text r1)) < 2)%nat -> metar_data = []).
  { intros L. pose proof (short_body_no_bulletin _ L) as B.
    unfold bulletin_of in B. now rewrite line_1_or_empty_nth in B. }
  repeat split.
  - exact R.
  - exact M.
  - intros L. pose proof (short_body_no_bulletin _ L) as B.
    unfold bulletin_of in B. now rewrite line_1_or_empty_nth in B.
  - intros L T. rewrite R, (M L).
    destruct taf_data; [contradiction | reflexivity].
Qed.

Lemma bulletin_is_line_1_of_trimmed_body_witness :
  outcome (get_aviation_weather Script.platform Script.RCTP
             ([Script.ok (u8 "2024/01/01 00:00"); Script.ok Script.taf_body], []))
  = Ok (Some [], Some (nth 1 (split LF (strip Script.taf_body)) [])).
Proof.
  refine (proj2 (proj2 (proj2
            (@bulletin_is_line_1_of_trimmed_body Script.platform Script.RCTP
               ([Script.ok (u8 "2024/01/01 00:00"); Script.ok Script.taf_body], [])
               (mkResponse 200 (u8 "2024/01/01 00:00"))
               (mkResponse 200 Script.taf_body)
               ([Script.ok Script.taf_body], []) ([], [])
               eq_refl eq_refl eq_refl eq_refl))) (le_n 2) _).
  intros E. exact (eq_ind (nth 1 (split LF (strip Script.taf_body)) [])
                     (fun l => match l with [] => False | _ :: _ => True end)
                     I [] E).
Defined.

(** *** The requests of the fetcher *)

(** The texts of the two URLs and of the header dictionary. *)
Lemma METAR_URL_text icao :
  METAR_URL icao
  = u8 "https://tgftp.nws.noaa.gov/data/observations/metar/stations/"
      ++ icao ++ u8 ".TXT".
Proof. reflexivity. Qed.

Lemma TAF_URL_text icao :
  TAF_URL icao
  = u8 "https://tgftp.nws.noaa.gov/data/forecasts/taf/stations/"
      ++ icao ++ u8 ".TXT".
Proof. reflexivity. Qed.

Lemma headers_text :
  headers = [(u8 "User-Agent", u8 "AviationWeatherBot (Python Requests)")].
Proof. reflexivity. Qed.

(** C8, as stated, fails: when the observation request is answered 404 the
    fetcher sends that one request and no forecast request. *)
Lemma observation_404_sends_one_request :
  trace (get_aviation_weather Script.platform Script.RCTP ([Script.status 404], []))
  = [EvGet (u8 "https://tgftp.nws.noaa.gov/data/observations/metar/stations/RCTP.TXT")
           [(u8 "User-Agent", u8 "AviationWeatherBot (Python Requests)")] 10]
  /\ forall hs timeout,
      ~ In (EvGet (u8 "https://tgftp.nws.noaa.gov/data/forecasts/taf/stations/RCTP.TXT")
                  hs timeout)
           (trace (get_aviation_weather Script.platform Script.RCTP
                     ([Script.status 404], []))).
Proof.
  split; [vm_compute; reflexivity |].
  intros hs timeout [E | []]. apply (f_equal (fun e => match e with
                                                       | EvGet u _ _ => nth 32 u 0%N
                                                       | EvReply _ _ => 0%N
                                                       end)) in E.
  vm_compute in E. discriminate E.
Qed.

(** C8, amended: the fetcher sends the observation request to
    https://tgftp.nws.noaa.gov/data/observations/metar/stations/ID.TXT;
    once that request has been answered, and only if the answer is a
    response without error status, it sends the forecast request to
    https://tgftp.nws.noaa.gov/data/forecasts/taf/stations/ID.TXT in the
    world the first request left; both carry the header User-Agent:
    AviationWeatherBot (Python Requests) and the timeout 10; it sends
    nothing else. *)
Theorem fetch_requests (P : Platform) (icao : str) (w : World P) :
  let user_agent :=
    [(u8 "User-Agent", u8 "AviationWeatherBot (Python Requests)")] in
  let obs_url :=
    u8 "https://tgftp.nws.noaa.gov/data/observations/metar/stations/"
      ++ icao ++ u8 ".TXT" in
  let fc_url :=
    u8 "https://tgftp.nws.noaa.gov/data/forecasts/taf/stations/"
      ++ icao ++ u8 ".TXT" in
  let first := http_get P obs_url user_agent 10 w in
  let run := get_aviation_weather P icao w in
  if goes_on (fst first)
  then trace run = [EvGet obs_url user_agent 10; EvGet fc_url user_agent 10]
       /\ world_after run = snd (http_get P fc_url user_agent 10 (snd first))
  else trace run = [EvGet obs_url user_agent 10]
       /\ world_after run = snd first.
Proof.
  cbv zeta.
  rewrite <- (METAR_URL_text icao), <- (TAF_URL_text icao), <- headers_text.
  destruct (http_get P (METAR_URL icao) headers 10 w) as [[r1 | c] w1] eqn:H1;
    cbn [goes_on fst snd].
  - destruct (is_error_status (status_code r1)) eqn:E1; cbn [negb].
    + rewrite (run_obs_error _ _ _ H1 E1). split; reflexivity.
    + destruct (http_get P (TAF_URL icao) headers 10 w1) as [[r2 | c] w2] eqn:H2.
      * destruct (is_error_status (status_code r2)) eqn:E2.
        -- rewrite (run_fc_error _ _ _ H1 E1 H2 E2). split; reflexivity.
        -- rewrite (run_both_answered _ _ _ H1 E1 H2 E2). split; reflexivity.
      * rewrite (run_fc_raises _ _ _ H1 E1 H2). split; reflexivity.
  - rewrite (run_obs_raises _ _ _ H1). split; reflexivity.
Qed.

(** A run of the fetcher sends GET requests only. *)
Lemma run_trace_is_gets P icao (w : World P) :
  filter is_get (trace (get_aviation_weather P icao w))
  = trace (get_aviation_weather P icao w).
Proof.
  destruct (http_get P (METAR_URL icao) headers 10 w) as [[r1 | c] w1] eqn:H1.
  - destruct (is_error_status (status_code r1)) eqn:E1.
    + now rewrite (run_obs_error _ _ _ H1 E1).
    + destruct (http_get P (TAF_URL icao) headers 10 w1) as [[r2 | c] w2] eqn:H2.
      * destruct (is_error_status (status_code r2)) eqn:E2.
        -- now rewrite (run_fc_error _ _ _ H1 E1 H2 E2).
        -- now rewrite (run_both_answered _ _ _ H1 E1 H2 E2).
      * now rewrite (run_fc_raises _ _ _ H1 E1 H2).
  - now rewrite (run_obs_raises _ _ _ H1).
Qed.

(** A run of the fetcher makes no reply call. *)
Lemma run_no_reply P icao (w : World P) :
  replies (trace (get_aviation_weather P icao w)) = [].
Proof.
  destruct (http_get P (METAR_URL icao) headers 10 w) as [[r1 | c] w1] eqn:H1.
  - destruct (is_error_status (status_code r1)) eqn:E1.
    + now rewrite (run_obs_error _ _ _ H1 E1).
    + destruct (http_get P (TAF_URL icao) headers 10 w1) as [[r2 | c] w2] eqn:H2.
      * destruct (is_error_status (status_code r2)) eqn:E2.
        -- now rewrite (run_fc_error _ _ _ H1 E1 H2 E2).
        -- now rewrite (run_both_answered _ _ _ H1 E1 H2 E2).
      * now rewrite (run_fc_raises _ _ _ H1 E1 H2).
  - now rewrite (run_obs_raises _ _ _ H1).
Qed.

(** *** The validator *)

(** Boolean comparisons on [N] as propositions, for [lia]. *)
Ltac n_bool :=
  repeat first
    [ rewrite andb_true_iff in * | rewrite orb_true_iff in *
    | rewrite andb_false_iff in * | rewrite orb_false_iff in *
    | rewrite N.leb_le in * | rewrite N.ltb_lt in *
    | rewrite N.leb_gt in * | rewrite N.ltb_ge in * ].

Lemma ascii_letter_upper c :
  is_ascii_letter c = true ->
  (c <? 128)%N = true
  /\ ((65 <=? ascii_upper c) && (ascii_upper c <=? 90))%N = true.
Proof.
  unfold is_ascii_letter, ascii_upper. intros H. split.
  - n_bool. lia.
  - destruct ((97 <=? c) && (c <=? 122))%N eqn:E; n_bool; lia.
Qed.

(** On ASCII letters [upper] is [ascii_upper], whatever the table. *)
Lemma upper_ascii_letters U s :
  forallb is_ascii_letter s = true -> upper U s = map ascii_upper s.
Proof.
  induction s as [| c r IH]; [reflexivity |].
  cbn [forallb]. intros H. apply andb_true_iff in H as [Hc Hr].
  unfold upper in *. cbn [flat_map map]. rewrite (IH Hr).
  unfold to_upper_full. destruct (ascii_letter_upper _ Hc) as [L _].
  rewrite L. reflexivity.
Qed.

(** The pattern accepts exactly the strings of four letters A-Z. *)
Lemma fullmatch_icao s :
  Re.fullmatch ICAO_PATTERN s = true <->
  List.length s = 4%nat
  /\ forallb (fun c => (65 <=? c) && (c <=? 90))%N s = true.
Proof.
  unfold Re.fullmatch, ICAO_PATTERN.
  destruct s as [| a [| b [| c [| d [| e r]]]]];
    cbn [Re.match_items Re.take_class List.length forallb];
    repeat match goal with
           | |- context [((65 <=? ?x) && (?x <=? 90))%N] =>
             destruct ((65 <=? x) && (x <=? 90))%N
           end;
    cbn [andb Nat.eqb Re.match_items];
    try (split; [discriminate | intros [L F]; discriminate]).
  - split; [intros _; split; reflexivity | reflexivity].
  - split; [| intros [L F]; discriminate].
    destruct r; [destruct (e =? LF)%N |]; discriminate.
  - split; [| intros [L F]; discriminate].
    destruct r; [destruct (e =? LF)%N |]; discriminate.
Qed.

Lemma fullmatch_four_letters s :
  List.length s = 4%nat -> forallb is_ascii_letter s = true ->
  Re.fullmatch ICAO_PATTERN (map ascii_upper s) = true.
Proof.
  intros L F. apply fullmatch_icao. split; [now rewrite length_map |].
  rewrite forallb_forall in *. intros x Hx. apply in_map_iff in Hx as (c & <- & Hc).
  apply (ascii_letter_upper c (F c Hc)).
Qed.

Lemma trace_reply_message P token txt (w : World P) :
  trace (reply_message P token txt w) = [EvReply token txt].
Proof.
  unfold reply_message. destruct (reply_api P token txt w) as [[c |] w1]; reflexivity.
Qed.

(** A rejected text: one reply, the fixed one. *)
Lemma handle_rejected P event (w : World P) :
  Re.fullmatch ICAO_PATTERN
    (upper (unicode_upper P) (strip (message_text event))) = false ->
  handle_message P event w
  = reply_message P (reply_token event) FORMAT_ERROR_REPLY w.
Proof.
  intros H. unfold handle_message. rewrite H. reflexivity.
Qed.

(** An accepted text: the run of the fetcher, then one reply with the
    formatted result. *)
Lemma handle_accepted P event (w : World P) :
  let icao := upper (unicode_upper P) (strip (message_text event)) in
  Re.fullmatch ICAO_PATTERN icao = true ->
  exists m t w1 rest,
    get_aviation_weather P icao w
    = (Ok (m, Some t), w1, EvGet (METAR_URL icao) headers 10 :: rest)
    /\ truthy m || nonempty t = true
    /\ outcome (handle_message P event w)
       = outcome (reply_message P (reply_token event)
                    (format_reply icao m (Some t)) w1)
    /\ trace (handle_message P event w)
       = (EvGet (METAR_URL icao) headers 10 :: rest)
           ++ [EvReply (reply_token event) (format_reply icao m (Some t))].
Proof.
  intros icao H.
  destruct (run_shape P icao w) as (m & t & w1 & rest & E & Hs).
  exists m, t, w1, rest. split; [exact E |]. split.
  { destruct Hs as [[-> F] | [d [-> T]]]; [| exact T].
    exact (failure_message_nonempty F). }
  unfold handle_message. fold icao. rewrite H. cbn [negb].
  unfold bind. rewrite E. cbn [fst snd].
  pose proof (trace_reply_message P (reply_token event)
                (format_reply icao m (Some t)) w1) as T.
  destruct (reply_message P (reply_token event) (format_reply icao m (Some t)) w1)
    as [[r w2] t2].
  cbn [trace outcome fst snd] in *. now rewrite T.
Qed.

Lemma FORMAT_ERROR_REPLY_text :
  FORMAT_ERROR_REPLY
  = u8 "⚠️ 格式錯誤！" ++ [LF]
      ++ u8 "請輸入一個 **4 碼 ICAO 機場代碼**（例如：**RCTP**、**RJAA**、**KLAX**）。".
Proof. reflexivity. Qed.

(** C3, as stated, fails: four long s, and two sharp s, are not four ASCII
    letters in any case; Python upper-cases both to SSSS, the handler
    accepts them, fetches SSSS and does not send the instruction. *)
Lemma non_ascii_text_is_fetched :
  forallb is_ascii_letter (strip (u8 "ſſſſ")) = false
  /\ forallb is_ascii_letter (strip (u8 "ßß")) = false
  /\ List.length (strip (u8 "ßß")) = 2%nat
  /\ fetches (trace (handle_message Script.platform
                       (mkTextEvent (u8 "token") (u8 "ſſſſ")) Script.quiet))
     = [EvGet (u8 "https://tgftp.nws.noaa.gov/data/observations/metar/stations/SSSS.TXT")
              [(u8 "User-Agent", u8 "AviationWeatherBot (Python Requests)")] 10]
  /\ fetches (trace (handle_message Script.platform
                       (mkTextEvent (u8 "token") (u8 "ßß")) Script.quiet))
     = [EvGet (u8 "https://tgftp.nws.noaa.gov/data/observations/metar/stations/SSSS.TXT")
              [(u8 "User-Agent", u8 "AviationWeatherBot (Python Requests)")] 10]
  /\ ~ In FORMAT_ERROR_REPLY
         (replies (trace (handle_message Script.platform
                            (mkTextEvent (u8 "token") (u8 "ſſſſ")) Script.quiet))).
Proof.
  repeat split; try (vm_compute; reflexivity).
  intros [E | []]. apply (f_equal (hd 0%N)) in E. vm_compute in E. discriminate E.
Qed.

(** C3, amended: the validator decides on the trimmed text upper-cased by
    Python.  When that is not four letters A-Z, the only outbound call is
    the reply with the fixed instruction, and nothing is fetched.  When it
    is, the text is accepted and the requests are the fetcher's for the
    upper-cased text, the observation request first.  A trimmed text of
    four ASCII letters of either case is of the second kind, and its
    upper-casing is the ASCII one, whatever the table. *)
Theorem validator_gate (P : Platform) (event : TextMessageEvent) (w : World P) :
  let user_input := strip (message_text event) in
  let icao_code := upper (unicode_upper P) user_input in
  (~ icao_code_ok icao_code ->
   trace (handle_message P event w)
   = [EvReply (reply_token event)
        (u8 "⚠️ 格式錯誤！" ++ [LF]
           ++ u8 "請輸入一個 **4 碼 ICAO 機場代碼**（例如：**RCTP**、**RJAA**、**KLAX**）。")]
   /\ fetches (trace (handle_message P event w)) = [])
  /\ (icao_code_ok icao_code ->
      exists m t rest,
        outcome (get_aviation_weather P icao_code w) = Ok (m, t)
        /\ trace (get_aviation_weather P icao_code w)
           = EvGet (u8 "https://tgftp.nws.noaa.gov/data/observations/metar/stations/"
                      ++ icao_code ++ u8 ".TXT")
                   [(u8 "User-Agent", u8 "AviationWeatherBot (Python Requests)")]
                   10 :: rest
        /\ trace (handle_message P event w)
           = trace (get_aviation_weather P icao_code w)
               ++ [EvReply (reply_token event) (format_reply icao_code m t)]
        /\ fetches (trace (handle_message P event w))
           = trace (get_aviation_weather P icao_code w))
  /\ (List.length user_input = 4%nat ->
      forallb is_ascii_letter user_input = true ->
      icao_code = map ascii_upper user_input /\ icao_code_ok icao_code).
Proof.
  intros user_input icao_code. split; [| split].
  - intros N.
    assert (V : Re.fullmatch ICAO_PATTERN icao_code = false).
    { destruct (Re.fullmatch ICAO_PATTERN icao_code) eqn:V; [| reflexivity].
      exfalso. apply N. apply fullmatch_icao. exact V. }
    rewrite (handle_rejected P event w V), trace_reply_message.
    rewrite <- FORMAT_ERROR_REPLY_text. split; reflexivity.
  - intros A. apply fullmatch_icao in A.
    destruct (handle_accepted P event w A) as (m & t & w1 & rest & E & _ & _ & T).
    fold user_input in E, T. fold icao_code in E, T.
    pose proof (run_no_reply P icao_code w) as Q.
    pose proof (run_trace_is_gets P icao_code w) as G.
    exists m, (Some t), rest.
    rewrite <- (METAR_URL_text icao_code), <- headers_text.
    rewrite E in *. cbn [outcome trace fst snd] in *.
    repeat split; try exact T.
    rewrite T. unfold fetches in *. rewrite filter_app, G. cbn [filter is_get].
    now rewrite app_nil_r.
  - intros L F.
    pose proof (upper_ascii_letters (unicode_upper P) _ F) as U.
    fold icao_code in U. split; [exact U |].
    rewrite U. apply fullmatch_icao. now apply fullmatch_four_letters.
Qed.

Lemma validator_gate_witness :
  trace (handle_message Script.platform Script.chatter Script.quiet)
  = [EvReply (reply_token Script.chatter)
       (u8 "⚠️ 格式錯誤！" ++ [LF]
          ++ u8 "請輸入一個 **4 碼 ICAO 機場代碼**（例如：**RCTP**、**RJAA**、**KLAX**）。")]
  /\ fetches (trace (handle_message Script.platform Script.typed_code Script.quiet))
     = trace (get_aviation_weather Script.platform
                (upper (unicode_upper Script.platform)
                   (strip (message_text Script.typed_code)))
                Script.quiet)
  /\ upper (unicode_upper Script.platform) (strip (message_text Script.typed_code))
     = map ascii_upper (strip (message_text Script.typed_code)).
Proof.
  split; [| split].
  - refine (proj1 (proj1 (validator_gate Script.platform Script.chatter Script.quiet)
                     _)).
    intros [L _]. discriminate L.
  - destruct (proj1 (proj2 (validator_gate Script.platform Script.typed_code
                              Script.quiet))
                (conj eq_refl eq_refl)) as (m & t & rest & _ & _ & _ & F).
    exact F.
  - exact (proj1 (proj2 (proj2 (validator_gate Script.platform Script.typed_code
                                  Script.quiet))
                    eq_refl eq_refl)).
Defined.

(** The validator sees the upper-cased text: with the table entry that maps
    the long s to S, four long s are accepted and SSSS is fetched. *)
Lemma upper_cased_long_s_is_accepted :
  exists rest,
    trace (handle_message Script.platform Script.long_s_text Script.quiet)
    = EvGet (METAR_URL (u8 "SSSS")) headers 10 :: rest.
Proof.
  eexists. vm_compute. reflexivity.
Qed.

(** *** The reply *)

(** With something truthy in the pair, the reply is the report. *)
Lemma format_reply_report icao m t :
  truthy m || truthy t = true ->
  format_reply icao m t
  = report_header icao ++ [LF]
      ++ METAR_TITLE ++ [LF]
      ++ (if truthy m then py_format m else metar_missing icao) ++ [LF]
      ++ TAF_TITLE ++ [LF]
      ++ (if truthy t then py_format t else taf_missing icao).
Proof.
  intros H. unfold format_reply. rewrite H.
  destruct (truthy m); destruct (truthy t); reflexivity.
Qed.

(** The report and the "query failed" wrapper start differently. *)
Lemma report_not_query_failed icao m t v :
  truthy m || truthy t = true -> format_reply icao m t <> query_failed v.
Proof.
  intros H E. rewrite (format_reply_report icao m t H) in E.
  apply (f_equal (hd 0%N)) in E. vm_compute in E. discriminate.
Qed.

(** A failure outcome, [None] with a message, is formatted as a report whose
    forecast section holds the message. *)
Lemma failure_outcome_formats_as_report icao msg :
  nonempty msg = true ->
  format_reply icao None (Some msg)
  = join [LF] [report_header icao; METAR_TITLE; metar_missing icao;
               TAF_TITLE; msg]
  /\ format_reply icao None (Some msg) <> query_failed (Some msg).
Proof.
  intros N. split.
  - unfold format_reply. cbn [truthy orb]. rewrite N. reflexivity.
  - apply report_not_query_failed. exact N.
Qed.

(** No run of [handle_message] sends the "query failed" wrapper. *)
Lemma query_failed_never_sent P event (w : World P) txt v :
  In txt (replies (trace (handle_message P event w))) -> txt <> query_failed v.
Proof.
  destruct (Re.fullmatch ICAO_PATTERN
              (upper (unicode_upper P) (strip (message_text event)))) eqn:A.
  - destruct (handle_accepted P event w A) as (m & t & w1 & rest & E & T & _ & R).
    pose proof (run_no_reply P
                  (upper (unicode_upper P) (strip (message_text event))) w) as Q.
    rewrite E in Q. cbn [trace snd] in Q.
    rewrite R. unfold replies in *. rewrite flat_map_app, Q.
    intros [<- | []]. apply report_not_query_failed. exact T.
  - rewrite (handle_rejected P event w A), trace_reply_message.
    intros [<- | []] E. apply (f_equal (hd 0%N)) in E. vm_compute in E.
    discriminate.
Qed.

(** C1, on the code: both bodies lack a data line, the fetcher returns
    [None] with the "no data" message, and the text sent is the two-section
    report with that message in its forecast section, not the "query
    failed" wrapper around it. *)
Theorem failure_outcome_is_sent_as_report :
  outcome (get_aviation_weather Script.platform Script.RCTP Script.no_data)
  = Ok (None, Some (msg_no_data Script.RCTP))
  /\ replies (trace (handle_message Script.platform Script.typed_code Script.no_data))
     = [join [LF] [report_header Script.RCTP; METAR_TITLE;
                   metar_missing Script.RCTP; TAF_TITLE;
                   msg_no_data Script.RCTP]]
  /\ replies (trace (handle_message Script.platform Script.typed_code Script.no_data))
     <> [query_failed (Some (msg_no_data Script.RCTP))].
Proof.
  split; [reflexivity |]. split; [reflexivity |].
  intros E. apply (f_equal (hd [])) in E.
  apply (f_equal (hd 0%N)) in E. vm_compute in E. discriminate.
Qed.

(** The texts of the pieces of the report. *)
Lemma report_header_text icao :
  report_header icao
  = u8 "✈️ **" ++ icao ++ u8 "** 航空氣象報告 (Aviation Weather Report)" ++ [LF].
Proof. reflexivity. Qed.

Lemma METAR_TITLE_text : METAR_TITLE = u8 "--- 觀測報告 (METAR) ---".
Proof. reflexivity. Qed.

Lemma TAF_TITLE_text : TAF_TITLE = [LF] ++ u8 "--- 預報 (TAF) ---".
Proof. reflexivity. Qed.

Lemma metar_missing_text icao :
  metar_missing icao = u8 "❌ 找不到 " ++ icao ++ u8 " 的最新 METAR 資料。".
Proof. reflexivity. Qed.

Lemma taf_missing_text icao :
  taf_missing icao = u8 "❌ 找不到 " ++ icao ++ u8 " 的最新 TAF 資料。".
Proof. reflexivity. Qed.

(** The report, with its texts written out. *)
Lemma format_reply_text icao m t :
  truthy m || truthy t = true ->
  format_reply icao m t
  = (u8 "✈️ **" ++ icao ++ u8 "** 航空氣象報告 (Aviation Weather Report)" ++ [LF])
      ++ [LF] ++ u8 "--- 觀測報告 (METAR) ---" ++ [LF]
      ++ match m with
         | Some (c :: s) => c :: s
         | _ => u8 "❌ 找不到 " ++ icao ++ u8 " 的最新 METAR 資料。"
         end
      ++ [LF] ++ ([LF] ++ u8 "--- 預報 (TAF) ---") ++ [LF]
      ++ match t with
         | Some (c :: s) => c :: s
         | _ => u8 "❌ 找不到 " ++ icao ++ u8 " 的最新 TAF 資料。"
         end.
Proof.
  intros H. rewrite (format_reply_report icao m t H).
  rewrite (report_header_text icao), METAR_TITLE_text, TAF_TITLE_text.
  rewrite (metar_missing_text icao), (taf_missing_text icao).
  destruct m as [[| c s] |]; destruct t as [[| c' s'] |];
    cbn [truthy nonempty py_format]; reflexivity.
Qed.

(** C9: the text sent after a fetch is a function of the identifier and the
    fetched pair alone: two runs with the same identifier and the same
    fetched pair, whatever the worlds, the tokens and the texts typed, send
    the same text, and it is the header line naming the identifier, an
    empty line, the METAR title, the observation line or the notice that
    names the identifier, an empty line, the TAF title, the forecast line or
    its notice; [format_reply] gives that text for every triple with a
    non-empty line in it. *)
Theorem reply_is_function_of_triple
    (P : Platform) (e1 e2 : TextMessageEvent) (w1 w2 : World P)
    (icao : str) (m t : pyval) :
  upper (unicode_upper P) (strip (message_text e1)) = icao ->
  upper (unicode_upper P) (strip (message_text e2)) = icao ->
  Re.fullmatch ICAO_PATTERN icao = true ->
  outcome (get_aviation_weather P icao w1) = Ok (m, t) ->
  outcome (get_aviation_weather P icao w2) = Ok (m, t) ->
  let report (metar taf : pyval) : str :=
    (u8 "✈️ **" ++ icao ++ u8 "** 航空氣象報告 (Aviation Weather Report)" ++ [LF])
      ++ [LF] ++ u8 "--- 觀測報告 (METAR) ---" ++ [LF]
      ++ match metar with
         | Some (c :: s) => c :: s
         | _ => u8 "❌ 找不到 " ++ icao ++ u8 " 的最新 METAR 資料。"
         end
      ++ [LF] ++ ([LF] ++ u8 "--- 預報 (TAF) ---") ++ [LF]
      ++ match taf with
         | Some (c :: s) => c :: s
         | _ => u8 "❌ 找不到 " ++ icao ++ u8 " 的最新 TAF 資料。"
         end in
  replies (trace (handle_message P e1 w1)) = [report m t]
  /\ replies (trace (handle_message P e2 w2)) = [report m t]
  /\ (forall metar taf,
        truthy metar || truthy taf = true ->
        format_reply icao metar taf = report metar taf).
Proof.
  intros U1 U2 A O1 O2 report.
  assert (F : forall metar taf,
             truthy metar || truthy taf = true ->
             format_reply icao metar taf = report metar taf)
    by (intros metar taf H; exact (format_reply_text icao metar taf H)).
  assert (R : forall e (w : World P),
             upper (unicode_upper P) (strip (message_text e)) = icao ->
             outcome (get_aviation_weather P icao w) = Ok (m, t) ->
             replies (trace (handle_message P e w)) = [report m t]).
  { intros e w U O. pose proof (handle_accepted P e w) as HA. cbv zeta in HA.
    rewrite U in HA. destruct (HA A) as (m' & t' & w' & rest & E & T & _ & R).
    rewrite E in O. cbn [outcome fst] in O. injection O as <- <-.
    rewrite R. pose proof (run_no_reply P icao w) as Q.
    rewrite E in Q. cbn [trace snd] in Q.
    unfold replies in *. rewrite flat_map_app, Q. cbn [flat_map app].
    now rewrite (F m' (Some t') T). }
  repeat split; [exact (R e1 w1 U1 O1) | exact (R e2 w2 U2 O2) | exact F].
Qed.

Lemma reply_is_function_of_triple_witness :
  replies (trace (handle_message Script.platform Script.typed_code Script.served))
  = replies (trace (handle_message Script.platform
                      (mkTextEvent (u8 "other") (u8 "RCTP")) Script.served_padded)).
Proof.
  destruct (@reply_is_function_of_triple Script.platform Script.typed_code
              (mkTextEvent (u8 "other") (u8 "RCTP"))
              Script.served Script.served_padded Script.RCTP
              (Some Script.metar_line) (Some Script.taf_line)
              eq_refl eq_refl eq_refl eq_refl eq_refl) as (R1 & R2 & _).
  rewrite R1, R2. reflexivity.
Defined.

(** *** The endpoint *)

Lemma reply_message_accepted P token txt (w : World P) :
  (forall token txt w', fst (reply_api P token txt w') = None) ->
  outcome (reply_message P token txt w) = Ok tt.
Proof.
  intros A. unfold reply_message. specialize (A token txt w).
  destruct (reply_api P token txt w) as [[c |] w1]; [discriminate A | reflexivity].
Qed.

(** With an accepting reply API the handler never raises. *)
Lemma handle_message_returns P event (w : World P) :
  (forall token txt w', fst (reply_api P token txt w') = None) ->
  outcome (handle_message P event w) = Ok tt.
Proof.
  intros A.
  destruct (Re.fullmatch ICAO_PATTERN
              (upper (unicode_upper P) (strip (message_text event)))) eqn:V.
  - destruct (handle_accepted P event w V) as (m & t & w1 & rest & _ & _ & O & _).
    rewrite O. now apply reply_message_accepted.
  - rewrite (handle_rejected P event w V). now apply reply_message_accepted.
Qed.

Lemma for_each_returns P (A : Type) (body : A -> M P unit) (xs : list A) :
  (forall x w, outcome (body x w) = Ok tt) ->
  forall w, outcome (for_each xs body w) = Ok tt.
Proof.
  intros B. induction xs as [| x xs IH]; intros w; [reflexivity |].
  cbn [for_each]. unfold bind. specialize (B x w).
  destruct (body x w) as [[r w1] t1]. cbn [outcome fst] in B. subst r.
  specialize (IH w1). destruct (for_each xs body w1) as [[r w2] t2].
  exact IH.
Qed.

(** C7, as stated, fails for verified requests: the signature is right, the
    reply API refuses the reply, the exception leaves [callback] and the
    answer is the 500 page. *)
Lemma verified_request_refused_reply_is_500 :
  validate_signature Script.platform (channel_secret Script.platform)
    (data Script.signed_chatter) (u8 "secrethello") = true
  /\ serve Script.platform Script.signed_chatter Script.reply_refused
     = (ErrorPage 500, Script.quiet, [EvReply (u8 "token") FORMAT_ERROR_REPLY])
  /\ fst (fst (serve Script.platform Script.signed_chatter Script.reply_refused))
     <> Reply200 (u8 "OK").
Proof.
  repeat split; try reflexivity. vm_compute. discriminate.
Qed.

(** C7, amended: a request whose signature does not verify is answered 400
    and nothing is sent, neither a reply nor a fetch; a verified request
    whose envelope parses and whose reply calls are all accepted is answered
    200 with the body OK. *)
Theorem signature_gate (P : Platform) (request : Request) (w : World P) :
  let signature :=
    match x_line_signature request with Some s => s | None => [] end in
  (validate_signature P (channel_secret P) (data request) signature = false ->
   serve P request w = (ErrorPage 400, w, []))
  /\ (validate_signature P (channel_secret P) (data request) signature = true ->
      forall events,
        parse_events P (data request) = inl events ->
        (forall token txt w', fst (reply_api P token txt w') = None) ->
        fst (fst (serve P request w)) = Reply200 (u8 "OK")).
Proof.
  intros signature. split.
  - intros V. unfold serve, callback, bind, try_except, handler_handle.
    fold signature. rewrite V. reflexivity.
  - intros V events E A.
    assert (O : outcome (handler_handle P (data request) signature w) = Ok tt).
    { unfold handler_handle. rewrite V, E. cbn [negb].
      apply for_each_returns. intros [e |] w'.
      - now apply handle_message_returns.
      - reflexivity. }
    unfold serve, callback, bind, try_except. fold signature.
    destruct (handler_handle P (data request) signature w) as [[r w1] t1].
    cbn [outcome fst] in O. subst r. reflexivity.
Qed.

Lemma signature_gate_witness :
  serve Script.accepting Script.forged_chatter Script.quiet
  = (ErrorPage 400, Script.quiet, [])
  /\ fst (fst (serve Script.accepting Script.signed_chatter Script.quiet))
     = Reply200 (u8 "OK").
Proof.
  split.
  - apply (proj1 (signature_gate Script.accepting Script.forged_chatter Script.quiet)).
    reflexivity.
  - apply (proj2 (signature_gate Script.accepting Script.signed_chatter Script.quiet)
             eq_refl [TextEvent Script.chatter] eq_refl).
    reflexivity.
Defined.

End Properties.

(* ================================================================== *)
(** ** Further properties of the handler, the endpoint and the fetcher *)
(* ================================================================== *)

Module Extras.

Import PyStr Runtime App Properties.

(** *** What a run of [handle_message] sends *)

(** The requests of a run of the fetcher: one or two. *)
Lemma run_trace_cases P icao (w : World P) :
  trace (get_aviation_weather P icao w) = [EvGet (METAR_URL icao) headers 10]
  \/ trace (get_aviation_weather P icao w)
     = [EvGet (METAR_URL icao) headers 10; EvGet (TAF_URL icao) headers 10].
Proof.
  destruct (http_get P (METAR_URL icao) headers 10 w) as [[r1 | c] w1] eqn:H1.
  - destruct (is_error_status (status_code r1)) eqn:E1.
    + left. now rewrite (run_obs_error _ _ _ H1 E1).
    + destruct (http_get P (TAF_URL icao) headers 10 w1) as [[r2 | c] w2] eqn:H2.
      * destruct (is_error_status (status_code r2)) eqn:E2; right.
        -- now rewrite (run_fc_error _ _ _ H1 E1 H2 E2).
        -- now rewrite (run_both_answered _ _ _ H1 E1 H2 E2).
      * right. now rewrite (run_fc_raises _ _ _ H1 E1 H2).
  - left. now rewrite (run_obs_raises _ _ _ H1).
Qed.

(** The trace of a run of the handler: the requests of the fetcher for a
    validated identifier, or none, and then one reply. *)
Lemma handle_trace P event (w : World P) :
  exists gets txt,
    trace (handle_message P event w)
    = gets ++ [EvReply (reply_token event) txt]
    /\ (gets = []
        \/ exists id,
            icao_code_ok id
            /\ (gets = [EvGet (METAR_URL id) headers 10]
                \/ gets = [EvGet (METAR_URL id) headers 10;
                           EvGet (TAF_URL id) headers 10])).
Proof.
  destruct (Re.fullmatch ICAO_PATTERN
              (upper (unicode_upper P) (strip (message_text event)))) eqn:V.
  - destruct (handle_accepted P event w V) as (m & t & w1 & rest & E & _ & _ & T).
    do 2 eexists. split; [exact T |]. right. eexists. split.
    + apply fullmatch_icao. exact V.
    + pose proof (run_trace_cases P
                    (upper (unicode_upper P) (strip (message_text event))) w) as C.
      rewrite E in C. exact C.
  - exists [], FORMAT_ERROR_REPLY. split; [| now left].
    rewrite (handle_rejected P event w V). apply trace_reply_message.
Qed.

(** X1: every run of [handle_message] makes exactly one reply call, with the
    reply token of the event, as its last outbound call; everything before it
    is a GET. *)
Theorem handle_message_replies_once P (event : TextMessageEvent) (w : World P) :
  exists gets txt,
    trace (handle_message P event w)
    = gets ++ [EvReply (reply_token event) txt]
    /\ forallb is_get gets = true
    /\ replies (trace (handle_message P event w)) = [txt].
Proof.
  destruct (handle_trace P event w) as (gets & txt & T & G).
  exists gets, txt. split; [exact T |].
  assert (F : forallb is_get gets = true /\ replies gets = []).
  { destruct G as [-> | (id & _ & [-> | ->])]; split; reflexivity. }
  destruct F as [F R]. split; [exact F |].
  rewrite T. unfold replies in *. rewrite flat_map_app, R. reflexivity.
Qed.

(** X2: whatever the text typed and whatever the upper-case table, every
    request a run of [handle_message] sends goes to one of the two URLs
    built from four letters A-Z, with the fixed header and timeout 10. *)
Theorem fetched_urls_are_validated P (event : TextMessageEvent) (w : World P)
    (url : str) (hs : list (str * str)) (timeout : Z) :
  In (EvGet url hs timeout) (trace (handle_message P event w)) ->
  exists id,
    icao_code_ok id
    /\ (url = METAR_URL id \/ url = TAF_URL id)
    /\ hs = headers /\ timeout = 10%Z.
Proof.
  destruct (handle_trace P event w) as (gets & txt & T & G). rewrite T.
  intros I. apply in_app_or in I as [I | [I | []]]; [| discriminate I].
  destruct G as [-> | (id & V & [-> | ->])]; [destruct I | |];
    exists id; (split; [exact V |]).
  - destruct I as [I | []]. injection I as <- <- <-.
    split; [left; reflexivity | split; reflexivity].
  - destruct I as [I | [I | []]]; injection I as <- <- <-.
    + split; [left; reflexivity | split; reflexivity].
    + split; [right; reflexivity | split; reflexivity].
Qed.

Lemma fetched_urls_are_validated_witness :
  exists id,
    icao_code_ok id
    /\ (METAR_URL Script.RCTP = METAR_URL id \/ METAR_URL Script.RCTP = TAF_URL id)
    /\ headers = headers /\ 10%Z = 10%Z.
Proof.
  exact (@fetched_urls_are_validated Script.platform Script.typed_code Script.quiet
           (METAR_URL Script.RCTP) headers 10 (or_introl eq_refl)).
Defined.

(** X3: a run of [handle_message] raises only when its reply call raises,
    with the exception of that call; no answer of the weather mirror makes
    the handler raise. *)
Theorem handler_raises_only_from_reply P (event : TextMessageEvent) (w : World P)
    (x : exception) :
  outcome (handle_message P event w) = Raise x ->
  exists txt w1 cls,
    fst (reply_api P (reply_token event) txt w1) = Some cls
    /\ x = OtherError cls
    /\ In (EvReply (reply_token event) txt) (trace (handle_message P event w)).
Proof.
  assert (R : forall txt w1,
             outcome (reply_message P (reply_token event) txt w1) = Raise x ->
             exists cls, fst (reply_api P (reply_token event) txt w1) = Some cls
                         /\ x = OtherError cls).
  { intros txt w1. unfold reply_message.
    destruct (reply_api P (reply_token event) txt w1) as [[c |] w2];
      cbn [outcome fst]; intros E; [| discriminate E].
    injection E as <-. now exists c. }
  destruct (Re.fullmatch ICAO_PATTERN
              (upper (unicode_upper P) (strip (message_text event)))) eqn:V.
  - destruct (handle_accepted P event w V) as (m & t & w1 & rest & _ & _ & O & T).
    rewrite O. intros E. destruct (R _ _ E) as (cls & A & ->).
    do 3 eexists. split; [exact A |]. split; [reflexivity |].
    rewrite T. apply in_or_app. right. now left.
  - rewrite (handle_rejected P event w V). intros E.
    destruct (R _ _ E) as (cls & A & ->).
    do 3 eexists. split; [exact A |]. split; [reflexivity |].
    rewrite trace_reply_message. now left.
Qed.

Lemma handler_raises_only_from_reply_witness :
  exists txt w1 cls,
    fst (reply_api Script.platform (reply_token Script.chatter) txt w1) = Some cls
    /\ OtherError (u8 "LineBotApiError") = OtherError cls
    /\ In (EvReply (reply_token Script.chatter) txt)
          (trace (handle_message Script.platform Script.chatter Script.reply_refused)).
Proof.
  exact (@handler_raises_only_from_reply Script.platform Script.chatter
           Script.reply_refused (OtherError (u8 "LineBotApiError")) eq_refl).
Defined.

(** *** What the endpoint does with a verified request *)

Section Endpoint.

Variable P : Platform.
Variable request : Request.
Variable w : World P.

Let signature : str :=
  match x_line_signature request with Some s => s | None => [] end.

(** The answer of the endpoint from the run of [handler.handle]. *)
Lemma serve_after_handle w1 t :
  handler_handle P (data request) signature w = (Ok tt, w1, t) ->
  serve P request w = (Reply200 (u8 "OK"), w1, t).
Proof.
  intros H. unfold serve, callback, bind, try_except. fold signature.
  rewrite H. cbn [ret]. now rewrite app_nil_r.
Qed.

Lemma serve_after_raise cls w1 t :
  handler_handle P (data request) signature w = (Raise (OtherError cls), w1, t) ->
  serve P request w = (ErrorPage 500, w1, t).
Proof.
  intros H. unfold serve, callback, bind, try_except. fold signature.
  rewrite H. reflexivity.
Qed.

(** Events that are no text messages are passed over. *)
Lemma dispatch_no_text events (w0 : World P) :
  text_events events = [] ->
  for_each events
    (fun ev => match ev with
               | TextEvent e => handle_message P e
               | OtherEvent => ret tt
               end) w0
  = (Ok tt, w0, []).
Proof.
  induction events as [| [e |] evs IH]; intros T; [reflexivity | discriminate T |].
  cbn [for_each]. unfold bind. cbn [ret]. now rewrite (IH T).
Qed.

(** X4: a verified request whose envelope has no text message event is
    answered 200 OK and causes no outbound call at all. *)
Theorem non_text_events_are_ignored events :
  validate_signature P (channel_secret P) (data request) signature = true ->
  parse_events P (data request) = inl events ->
  text_events events = [] ->
  serve P request w = (Reply200 (u8 "OK"), w, []).
Proof.
  intros V E T. apply serve_after_handle.
  unfold handler_handle. rewrite V, E. cbn [negb].
  now apply dispatch_no_text.
Qed.

(** X5: a verified request whose envelope the parser refuses is answered
    with the 500 page, the parser's exception leaving [callback]; no
    outbound call is made. *)
Theorem malformed_envelope_is_500 cls :
  validate_signature P (channel_secret P) (data request) signature = true ->
  parse_events P (data request) = inr cls ->
  serve P request w = (ErrorPage 500, w, []).
Proof.
  intros V E. apply serve_after_raise with (cls := cls).
  unfold handler_handle. rewrite V, E. reflexivity.
Qed.

Lemma handle_raise_is_other event (w0 : World P) x :
  outcome (handle_message P event w0) = Raise x -> exists cls, x = OtherError cls.
Proof.
  assert (R : forall txt w1,
             outcome (reply_message P (reply_token event) txt w1) = Raise x ->
             exists cls, x = OtherError cls).
  { intros txt w1. unfold reply_message.
    destruct (reply_api P (reply_token event) txt w1) as [[c |] w2];
      cbn [outcome fst]; intros E; [| discriminate E].
    injection E as <-. now exists c. }
  destruct (Re.fullmatch ICAO_PATTERN
              (upper (unicode_upper P) (strip (message_text event)))) eqn:V.
  - destruct (handle_accepted P event w0 V) as (m & t & w1 & rest & _ & _ & O & _).
    rewrite O. apply R.
  - rewrite (handle_rejected P event w0 V). apply R.
Qed.

(** X6: when the reply to a text message event raises, the events after it
    are not handled: the endpoint answers with the 500 page and its outbound
    calls are those of that one run of the handler. *)
Theorem refused_reply_stops_dispatch before event after x :
  validate_signature P (channel_secret P) (data request) signature = true ->
  parse_events P (data request) = inl (before ++ TextEvent event :: after) ->
  text_events before = [] ->
  outcome (handle_message P event w) = Raise x ->
  serve P request w
  = (ErrorPage 500, world_after (handle_message P event w),
     trace (handle_message P event w)).
Proof.
  intros V E T O. destruct (handle_raise_is_other _ _ O) as [cls ->].
  apply serve_after_raise with (cls := cls).
  unfold handler_handle. rewrite V, E. cbn [negb].
  clear E. induction before as [| [e |] evs IH]; [| discriminate T |].
  - cbn [app for_each]. unfold bind.
    destruct (handle_message P event w) as [[r w1] t1].
    cbn [outcome world_after trace fst snd] in *. subst r. reflexivity.
  - cbn [app for_each]. unfold bind at 1. cbn [ret].
    specialize (IH T).
    destruct (for_each (evs ++ TextEvent event :: after) _ w) as [[r w1] t1].
    exact IH.
Qed.

End Endpoint.

Lemma non_text_events_are_ignored_witness :
  serve Script.silent Script.signed_chatter Script.quiet
  = (Reply200 (u8 "OK"), Script.quiet, []).
Proof.
  exact (@non_text_events_are_ignored Script.silent Script.signed_chatter
           Script.quiet [OtherEvent; OtherEvent] eq_refl eq_refl eq_refl).
Defined.

Lemma malformed_envelope_is_500_witness :
  serve Script.platform Script.signed_empty Script.quiet
  = (ErrorPage 500, Script.quiet, []).
Proof.
  exact (@malformed_envelope_is_500 Script.platform Script.signed_empty
           Script.quiet (u8 "JSONDecodeError") eq_refl eq_refl).
Defined.

Lemma refused_reply_stops_dispatch_witness :
  serve Script.mixed Script.signed_chatter Script.reply_refused
  = (ErrorPage 500,
     world_after (handle_message Script.mixed
                    (mkTextEvent (u8 "t1") (u8 "hello")) Script.reply_refused),
     trace (handle_message Script.mixed
              (mkTextEvent (u8 "t1") (u8 "hello")) Script.reply_refused)).
Proof.
  exact (@refused_reply_stops_dispatch Script.mixed Script.signed_chatter
           Script.reply_refused [OtherEvent]
           (mkTextEvent (u8 "t1") (u8 "hello"))
           [OtherEvent; TextEvent (mkTextEvent (u8 "t2") (u8 "rjaa"))]
           (OtherError (u8 "LineBotApiError")) eq_refl eq_refl eq_refl eq_refl).
Defined.

(** With an accepting reply API every event is handled, in order. *)
Lemma dispatch_tokens P (events : list WebhookEvent) :
  (forall token txt w', fst (reply_api P token txt w') = None) ->
  forall w : World P,
    outcome (for_each events
               (fun ev => match ev with
                          | TextEvent e => handle_message P e
                          | OtherEvent => ret tt
                          end) w) = Ok tt
    /\ reply_tokens
         (trace (for_each events
                   (fun ev => match ev with
                              | TextEvent e => handle_message P e
                              | OtherEvent => ret tt
                              end) w))
       = map reply_token (text_events events).
Proof.
  intros A. induction events as [| [e |] evs IH]; intros w.
  - split; reflexivity.
  - cbn [for_each text_events flat_map app map]. unfold bind.
    pose proof (handle_message_returns P e w A) as O.
    destruct (handle_trace P e w) as (gets & txt & T & G).
    destruct (handle_message P e w) as [[r w1] t1].
    cbn [outcome trace fst snd] in O, T. subst r t1.
    destruct (IH w1) as [O2 T2].
    destruct (for_each evs _ w1) as [[r2 w2] t2].
    cbn [outcome trace fst snd] in *. split; [exact O2 |].
    unfold reply_tokens in *. rewrite !flat_map_app, T2.
    destruct G as [-> | (id & _ & [-> | ->])]; reflexivity.
  - cbn [for_each text_events flat_map app]. unfold bind at 1 2. cbn [ret].
    destruct (IH w) as [O2 T2].
    destruct (for_each evs _ w) as [[r2 w2] t2].
    cbn [outcome trace fst snd app] in *. split; assumption.
Qed.

(** X7: a verified request whose envelope parses, on a reply API that
    accepts every call, gets exactly one reply per text message event, with
    the tokens of the events in the order of the envelope. *)
Theorem one_reply_per_text_event P (request : Request) (w : World P) events :
  let signature :=
    match x_line_signature request with Some s => s | None => [] end in
  validate_signature P (channel_secret P) (data request) signature = true ->
  parse_events P (data request) = inl events ->
  (forall token txt w', fst (reply_api P token txt w') = None) ->
  reply_tokens (snd (serve P request w)) = map reply_token (text_events events).
Proof.
  intros signature V E A.
  destruct (dispatch_tokens P events A w) as [O T].
  assert (H : exists w1 t,
             handler_handle P (data request) signature w = (Ok tt, w1, t)
             /\ reply_tokens t = map reply_token (text_events events)).
  { unfold handler_handle. rewrite V, E. cbn [negb].
    destruct (for_each events _ w) as [[r w1] t].
    cbn [outcome trace fst snd] in *. subst r. now exists w1, t. }
  destruct H as (w1 & t & H & R).
  rewrite (@serve_after_handle P request w w1 t H). exact R.
Qed.

Lemma one_reply_per_text_event_witness :
  reply_tokens (snd (serve Script.mixed_accepting Script.signed_chatter Script.quiet))
  = map reply_token (text_events Script.mixed_events).
Proof.
  exact (@one_reply_per_text_event Script.mixed_accepting Script.signed_chatter
           Script.quiet Script.mixed_events eq_refl eq_refl
           (fun _ _ _ => eq_refl)).
Defined.

(** *** White space and case of the text typed *)

Lemma lstrip_head s :
  lstrip s = [] \/ exists c r, lstrip s = c :: r /\ isspace c = false.
Proof.
  induction s as [| c r IH]; [now left |].
  cbn [lstrip]. destruct (isspace c) eqn:S; [exact IH |].
  right. now exists c, r.
Qed.

Lemma rstrip_head c r :
  isspace c = false -> exists r', rstrip (c :: r) = c :: r'.
Proof.
  intros S. cbn [rstrip]. destruct (rstrip r) as [| x r'].
  - rewrite S. now exists [].
  - now exists (x :: r').
Qed.

Lemma rstrip_idempotent s : rstrip (rstrip s) = rstrip s.
Proof.
  induction s as [| c r IH]; [reflexivity |].
  cbn [rstrip]. destruct (rstrip r) as [| x r'] eqn:R.
  - destruct (isspace c) eqn:S; [reflexivity |]. cbn [rstrip]. now rewrite S.
  - change (rstrip (c :: x :: r')) with
      (match rstrip (x :: r') with
       | [] => if isspace c then [] else [c]
       | y :: r'' => c :: y :: r''
       end).
    now rewrite IH.
Qed.

(** [strip] is idempotent. *)
Lemma strip_idempotent s : strip (strip s) = strip s.
Proof.
  unfold strip. destruct (lstrip_head s) as [-> | (c & r & -> & S)]; [reflexivity |].
  destruct (rstrip_head c r S) as [r' E]. rewrite E.
  cbn [lstrip]. rewrite S, <- E. apply rstrip_idempotent.
Qed.

(** X8: white space around the text typed changes nothing: the handler does
    on a text what it does on the trimmed text. *)
Theorem surrounding_whitespace_ignored P (token s : str) (w : World P) :
  handle_message P (mkTextEvent token s) w
  = handle_message P (mkTextEvent token (strip s)) w.
Proof.
  unfold handle_message. cbn [message_text reply_token].
  now rewrite strip_idempotent.
Qed.

Ltac n_bool_eq :=
  repeat first
    [ rewrite andb_true_iff in * | rewrite orb_true_iff in *
    | rewrite andb_false_iff in * | rewrite orb_false_iff in *
    | rewrite N.leb_le in * | rewrite N.ltb_lt in *
    | rewrite N.leb_gt in * | rewrite N.ltb_ge in *
    | rewrite N.eqb_eq in * | rewrite N.eqb_neq in * ].

Lemma letter_not_space c : is_ascii_letter c = true -> isspace c = false.
Proof.
  intros L. destruct (isspace c) eqn:S; [| reflexivity].
  unfold is_ascii_letter, isspace in *. n_bool_eq. lia.
Qed.

Lemma rstrip_no_space s :
  forallb (fun c => negb (isspace c)) s = true -> rstrip s = s.
Proof.
  induction s as [| c r IH]; [reflexivity |].
  cbn [forallb rstrip]. intros H. apply andb_true_iff in H as [Hc Hr].
  rewrite (IH Hr). destruct r; [| reflexivity].
  apply negb_true_iff in Hc. now rewrite Hc.
Qed.

(** A string of ASCII letters has nothing to trim. *)
Lemma strip_letters s : forallb is_ascii_letter s = true -> strip s = s.
Proof.
  intros L. unfold strip.
  assert (N : forallb (fun c => negb (isspace c)) s = true).
  { rewrite forallb_forall in *. intros c I.
    now rewrite (letter_not_space c (L c I)). }
  destruct s as [| c r]; [reflexivity |].
  cbn [lstrip]. cbn [forallb] in N. apply andb_true_iff in N as [Nc Nr].
  apply negb_true_iff in Nc. rewrite Nc.
  apply rstrip_no_space. cbn [forallb]. now rewrite Nc, Nr.
Qed.

Lemma ascii_upper_letter c :
  is_ascii_letter c = true ->
  is_ascii_letter (ascii_upper c) = true
  /\ ascii_upper (ascii_upper c) = ascii_upper c.
Proof.
  intros L. destruct (ascii_letter_upper c L) as [_ R].
  split.
  - unfold is_ascii_letter. now rewrite R.
  - unfold ascii_upper at 1.
    destruct ((97 <=? ascii_upper c) && (ascii_upper c <=? 122))%N eqn:E;
      [| reflexivity].
    n_bool. lia.
Qed.

(** X9: the case of ASCII letters changes nothing: on a text of ASCII
    letters the handler does what it does on the upper-cased text. *)
Theorem ascii_case_ignored P (token s : str) (w : World P) :
  forallb is_ascii_letter s = true ->
  handle_message P (mkTextEvent token s) w
  = handle_message P (mkTextEvent token (map ascii_upper s)) w.
Proof.
  intros L.
  assert (LU : forallb is_ascii_letter (map ascii_upper s) = true).
  { rewrite forallb_forall in *. intros x I.
    apply in_map_iff in I as (c & <- & I). apply ascii_upper_letter. now apply L. }
  assert (UU : map ascii_upper (map ascii_upper s) = map ascii_upper s).
  { rewrite map_map. apply map_ext_in. intros c I.
    rewrite forallb_forall in L. apply ascii_upper_letter. now apply L. }
  unfold handle_message. cbn [message_text reply_token].
  rewrite (strip_letters _ L), (strip_letters _ LU).
  rewrite (upper_ascii_letters (unicode_upper P) _ L).
  rewrite (upper_ascii_letters (unicode_upper P) _ LU), UU. reflexivity.
Qed.

Lemma ascii_case_ignored_witness :
  handle_message Script.platform (mkTextEvent (u8 "token") (u8 "rCtp")) Script.served
  = handle_message Script.platform
      (mkTextEvent (u8 "token") (map ascii_upper (u8 "rCtp"))) Script.served.
Proof.
  exact (@ascii_case_ignored Script.platform (u8 "token") (u8 "rCtp")
           Script.served eq_refl).
Defined.

(** X10: the pattern of the validator accepts exactly the strings of four
    letters A-Z; an accepted string followed by a line feed is refused,
    though [$] holds before a final line feed. *)
Theorem icao_pattern_language (s : str) :
  (Re.fullmatch ICAO_PATTERN s = true <-> icao_code_ok s)
  /\ (Re.fullmatch ICAO_PATTERN s = true ->
      Re.fullmatch ICAO_PATTERN (s ++ [LF]) = false).
Proof.
  split; [apply fullmatch_icao |].
  intros A. apply fullmatch_icao in A as [L _].
  destruct (Re.fullmatch ICAO_PATTERN (s ++ [LF])) eqn:B; [| reflexivity].
  apply fullmatch_icao in B as [L' _].
  rewrite length_app in L'. cbn [List.length] in L'. lia.
Qed.

Lemma icao_pattern_language_witness :
  Re.fullmatch ICAO_PATTERN (Script.RCTP ++ [LF]) = false.
Proof.
  exact (proj2 (icao_pattern_language Script.RCTP) eq_refl).
Defined.

(** *** The bulletins *)

Lemma split_pieces_no_sep sep s l : In l (split sep s) -> ~ In sep l.
Proof.
  revert l. induction s as [| c r IH]; intros l.
  - intros [<- | []] [].
  - cbn [split]. destruct (c =? sep)%N eqn:E.
    + intros [<- | I]; [intros [] | now apply IH].
    + destruct (split sep r) as [| l0 ls]; cbn [In].
      * intros [<- | []] [-> | []]. now rewrite N.eqb_refl in E.
      * intros [<- | I].
        -- intros [-> | I0]; [now rewrite N.eqb_refl in E |].
           apply (IH l0); [now left | exact I0].
        -- apply IH. now right.
Qed.

Lemma bulletin_no_line_feed body : ~ In LF (bulletin_of body).
Proof.
  unfold bulletin_of. rewrite line_1_or_empty_nth.
  destruct (nth_in_or_default 1 (split LF (strip body)) []) as [I | ->].
  - now apply split_pieces_no_sep in I.
  - intros [].
Qed.

(** X11: the two strings of a success outcome are single lines: neither
    contains a line feed, whatever the bodies served. *)
Theorem bulletins_are_single_lines P (icao : str) (w : World P) (d t : str) :
  outcome (get_aviation_weather P icao w) = Ok (Some d, Some t) ->
  ~ In LF d /\ ~ In LF t.
Proof.
  destruct (http_get P (METAR_URL icao) headers 10 w) as [[r1 | c] w1] eqn:H1.
  - destruct (is_error_status (status_code r1)) eqn:E1.
    + rewrite (run_obs_error _ _ _ H1 E1). cbn [outcome fst]. intros E.
      apply (f_equal (fun r => match r with
                               | Ok (Some _, _) => true | _ => false end)) in E.
      discriminate E.
    + destruct (http_get P (TAF_URL icao) headers 10 w1) as [[r2 | c] w2] eqn:H2.
      * destruct (is_error_status (status_code r2)) eqn:E2.
        -- rewrite (run_fc_error _ _ _ H1 E1 H2 E2). cbn [outcome fst]. intros E.
           apply (f_equal (fun r => match r with
                                    | Ok (Some _, _) => true | _ => false end)) in E.
           discriminate E.
        -- rewrite (run_both_answered _ _ _ H1 E1 H2 E2). cbn [outcome fst].
           destruct (negb (nonempty _) && negb (nonempty _)); intros E.
           ++ apply (f_equal (fun r => match r with
                                       | Ok (Some _, _) => true | _ => false end)) in E.
              discriminate E.
           ++ injection E as <- <-. split; apply bulletin_no_line_feed.
      * rewrite (run_fc_raises _ _ _ H1 E1 H2). cbn [outcome fst]. intros E.
        apply (f_equal (fun r => match r with
                                 | Ok (Some _, _) => true | _ => false end)) in E.
        discriminate E.
  - rewrite (run_obs_raises _ _ _ H1). cbn [outcome fst]. intros E.
    apply (f_equal (fun r => match r with
                             | Ok (Some _, _) => true | _ => false end)) in E.
    discriminate E.
Qed.

Lemma bulletins_are_single_lines_witness :
  ~ In LF (bulletin_of Script.metar_body) /\ ~ In LF (bulletin_of Script.taf_body).
Proof.
  exact (@bulletins_are_single_lines Script.platform Script.RCTP Script.served
           (bulletin_of Script.metar_body) (bulletin_of Script.taf_body) eq_refl).
Defined.

Lemma split_first_line sep h t :
  ~ In sep h -> split sep (h ++ sep :: t) = h :: split sep t.
Proof.
  induction h as [| c r IH]; intros N.
  - cbn [app split]. now rewrite N.eqb_refl.
  - cbn [app split]. destruct (c =? sep)%N eqn:E.
    + apply N.eqb_eq in E. subst c. exfalso. apply N. now left.
    + rewrite IH; [reflexivity |]. intros I. apply N. now right.
Qed.

Lemma rstrip_app_kept x m : rstrip m <> [] -> rstrip (x ++ m) = x ++ rstrip m.
Proof.
  intros K. induction x as [| c r IH]; [reflexivity |].
  cbn [app rstrip]. rewrite IH.
  destruct (r ++ rstrip m) as [| y z] eqn:E; [| reflexivity].
  apply app_eq_nil in E as [_ E]. contradiction.
Qed.

(** The bulletin of a body whose first line starts with a visible
    character and whose second line is followed by something visible. *)
Lemma bulletin_of_long_body c h d more :
  isspace c = false -> ~ In LF (c :: h) -> ~ In LF d -> rstrip more <> [] ->
  bulletin_of ((c :: h) ++ LF :: d ++ LF :: more) = d.
Proof.
  intros S Nh Nd K. unfold bulletin_of, strip.
  cbn [app lstrip]. rewrite S.
  assert (A : c :: h ++ LF :: d ++ LF :: more
              = (c :: h ++ LF :: d ++ [LF]) ++ more).
  { cbn [app]. f_equal. rewrite <- !app_assoc. cbn [app].
    f_equal. f_equal. rewrite <- app_assoc. reflexivity. }
  rewrite A, (@rstrip_app_kept _ _ K).
  assert (B : (c :: h ++ LF :: d ++ [LF]) ++ rstrip more
              = (c :: h) ++ LF :: (d ++ LF :: rstrip more)).
  { cbn [app]. f_equal. rewrite <- !app_assoc. cbn [app].
    f_equal. f_equal. rewrite <- app_assoc. reflexivity. }
  rewrite B, (@split_first_line _ _ _ Nh), (@split_first_line _ _ _ Nd).
  reflexivity.
Qed.

(** X12: of a forecast of several lines only the first is returned: when
    the forecast body is a first line that starts with a visible character,
    a non-empty second line, and more text that is not all white space, the
    success outcome carries that second line alone and the rest is dropped. *)
Theorem later_lines_are_dropped P (icao : str) (w : World P)
    (r1 r2 : Response) (w1 w2 : World P) (c : codepoint) (h d more : str) :
  http_get P (METAR_URL icao) headers 10 w = (inl r1, w1) ->
  is_error_status (status_code r1) = false ->
  http_get P (TAF_URL icao) headers 10 w1 = (inl r2, w2) ->
  is_error_status (status_code r2) = false ->
  text r2 = (c :: h) ++ LF :: d ++ LF :: more ->
  isspace c = false -> ~ In LF (c :: h) -> ~ In LF d -> d <> [] ->
  rstrip more <> [] ->
  outcome (get_aviation_weather P icao w)
  = Ok (Some (bulletin_of (text r1)), Some d).
Proof.
  intros H1 E1 H2 E2 T S Nh Nd D K.
  rewrite (run_both_answered _ _ _ H1 E1 H2 E2). cbn [outcome fst].
  fold (bulletin_of (text r1)). fold (bulletin_of (text r2)).
  rewrite T, (@bulletin_of_long_body _ _ _ _ S Nh Nd K).
  destruct d; [contradiction |]. cbn [nonempty negb andb].
  now rewrite andb_false_r.
Qed.

Lemma no_line_feed_check l :
  forallb (fun x => negb (x =? LF)%N) l = true -> ~ In LF l.
Proof.
  intros F I. rewrite forallb_forall in F. specialize (F LF I).
  now rewrite N.eqb_refl in F.
Qed.

Lemma nonempty_not_nil (l : str) : nonempty l = true -> l <> [].
Proof. intros N ->. discriminate N. Qed.

Lemma later_lines_are_dropped_witness :
  outcome (get_aviation_weather Script.platform Script.RCTP Script.served_long)
  = Ok (Some (bulletin_of (text (mkResponse 200 Script.metar_body))),
        Some Script.taf_first_line).
Proof.
  exact (@later_lines_are_dropped Script.platform Script.RCTP Script.served_long
           (mkResponse 200 Script.metar_body) (mkResponse 200 Script.taf_long_body)
           ([Script.ok Script.taf_long_body], []) ([], [])
           50%N (tl Script.taf_stamp) Script.taf_first_line Script.taf_more_lines
           eq_refl eq_refl eq_refl eq_refl eq_refl eq_refl
           (@no_line_feed_check (50%N :: tl Script.taf_stamp) eq_refl)
           (@no_line_feed_check Script.taf_first_line eq_refl)
           (@nonempty_not_nil Script.taf_first_line eq_refl)
           (@nonempty_not_nil (rstrip Script.taf_more_lines) eq_refl)).
Defined.

(** *** The failure messages *)

(** X13: the four failure messages of the fetcher are pairwise different,
    for every identifier and every class name, so the text tells the causes
    apart: no data line, 404, another HTTP error, any other exception. *)
Theorem failure_messages_differ (icao cls cls' : str) :
  msg_no_data icao <> msg_404 icao
  /\ msg_no_data icao <> msg_http_error cls
  /\ msg_no_data icao <> msg_unexpected cls
  /\ msg_404 icao <> msg_http_error cls
  /\ msg_404 icao <> msg_unexpected cls
  /\ msg_http_error cls <> msg_unexpected cls'.
Proof.
  assert (D : forall a b : str, hd 0%N a <> hd 0%N b -> a <> b)
    by (intros a b N ->; now apply N).
  repeat split.
  - unfold msg_no_data, msg_404. intros E.
    apply app_inv_head in E. apply app_inv_head in E.
    apply (f_equal (fun l => nth 3 l 0%N)) in E. vm_compute in E. discriminate E.
  - apply D. vm_compute. discriminate.
  - apply D. vm_compute. discriminate.
  - apply D. vm_compute. discriminate.
  - apply D. vm_compute. discriminate.
  - apply D. vm_compute. discriminate.
Qed.

(** *** Statuses that are no errors *)

(** X14: the fetcher tests for the error statuses 400-599 only: when both
    answers have a status outside that range, be it 2xx or not, their bodies
    are read for bulletins and the outcome is that of the bulletins. *)
Theorem only_error_statuses_fail P (icao : str) (w : World P)
    (r1 r2 : Response) (w1 w2 : World P) :
  http_get P (METAR_URL icao) headers 10 w = (inl r1, w1) ->
  (status_code r1 < 400 \/ 600 <= status_code r1)%Z ->
  http_get P (TAF_URL icao) headers 10 w1 = (inl r2, w2) ->
  (status_code r2 < 400 \/ 600 <= status_code r2)%Z ->
  outcome (get_aviation_weather P icao w)
  = Ok (if negb (nonempty (bulletin_of (text r1)))
           && negb (nonempty (bulletin_of (text r2)))
        then (None, Some (msg_no_data icao))
        else (Some (bulletin_of (text r1)), Some (bulletin_of (text r2)))).
Proof.
  intros H1 S1 H2 S2.
  assert (E1 : is_error_status (status_code r1) = false)
    by (unfold is_error_status; lia).
  assert (E2 : is_error_status (status_code r2) = false)
    by (unfold is_error_status; lia).
  now rewrite (run_both_answered _ _ _ H1 E1 H2 E2).
Qed.

Lemma only_error_statuses_fail_witness :
  outcome (get_aviation_weather Script.platform Script.RCTP
             Script.served_odd_statuses)
  = Ok (if negb (nonempty (bulletin_of (text (mkResponse 304 Script.metar_body))))
           && negb (nonempty (bulletin_of (text (mkResponse 100 Script.taf_body))))
        then (None, Some (msg_no_data Script.RCTP))
        else (Some (bulletin_of (text (mkResponse 304 Script.metar_body))),
              Some (bulletin_of (text (mkResponse 100 Script.taf_body))))).
Proof.
  exact (@only_error_statuses_fail Script.platform Script.RCTP
           Script.served_odd_statuses
           (mkResponse 304 Script.metar_body) (mkResponse 100 Script.taf_body)
           ([inl (mkResponse 100 Script.taf_body)], []) ([], [])
           eq_refl (or_introl (eq_refl : (304 ?= 400)%Z = Lt))
           eq_refl (or_introl (eq_refl : (100 ?= 400)%Z = Lt))).
Defined.

(** *** The reply token and the layout of the report *)

(** X15: the reply token takes no part in the work: two events with the
    same text and different tokens, handled in the same world, cause the
    same requests and the same reply text. *)
Theorem reply_token_takes_no_part P (token token' s : str) (w : World P) :
  fetches (trace (handle_message P (mkTextEvent token s) w))
  = fetches (trace (handle_message P (mkTextEvent token' s) w))
  /\ replies (trace (handle_message P (mkTextEvent token s) w))
     = replies (trace (handle_message P (mkTextEvent token' s) w)).
Proof.
  destruct (Re.fullmatch ICAO_PATTERN
              (upper (unicode_upper P) (strip s))) eqn:V.
  - destruct (handle_accepted P (mkTextEvent token s) w V)
      as (m & t & w1 & rest & E & _ & _ & T).
    destruct (handle_accepted P (mkTextEvent token' s) w V)
      as (m' & t' & w1' & rest' & E' & _ & _ & T').
    cbn [message_text reply_token] in *. rewrite E in E'.
    injection E' as <- <- <- <-. rewrite T, T'.
    unfold fetches, replies. rewrite !filter_app, !flat_map_app.
    split; reflexivity.
  - rewrite (handle_rejected P (mkTextEvent token s) w V).
    rewrite (handle_rejected P (mkTextEvent token' s) w V).
    rewrite !trace_reply_message. split; reflexivity.
Qed.

Lemma split_no_sep sep s : ~ In sep s -> split sep s = [s].
Proof.
  induction s as [| c r IH]; intros N; [reflexivity |].
  cbn [split]. destruct (c =? sep)%N eqn:E.
  - apply N.eqb_eq in E. subst c. exfalso. apply N. now left.
  - rewrite IH; [reflexivity |]. intros I. apply N. now right.
Qed.

Lemma no_line_feed_app a b : ~ In LF a -> ~ In LF b -> ~ In LF (a ++ b).
Proof.
  intros A B I. apply in_app_or in I as [I | I]; auto.
Qed.

Lemma icao_code_no_line_feed id : icao_code_ok id -> ~ In LF id.
Proof.
  intros [_ F] I. rewrite forallb_forall in F. specialize (F LF I).
  discriminate F.
Qed.

(** X16: for a validated identifier and two non-empty bulletins without
    line feed, the report splits at the line feeds into exactly seven lines:
    the header with the identifier, an empty line, the METAR title, the
    observation, an empty line, the TAF title, the forecast. *)
Theorem report_has_seven_lines (icao metar taf : str) :
  icao_code_ok icao ->
  nonempty metar = true -> ~ In LF metar ->
  nonempty taf = true -> ~ In LF taf ->
  split LF (format_reply icao (Some metar) (Some taf))
  = [u8 "✈️ **" ++ icao ++ u8 "** 航空氣象報告 (Aviation Weather Report)";
     []; METAR_TITLE; metar; []; u8 "--- 預報 (TAF) ---"; taf].
Proof.
  intros V Nm Lm Nt Lt.
  assert (H : ~ In LF (u8 "✈️ **" ++ icao
                         ++ u8 "** 航空氣象報告 (Aviation Weather Report)")).
  { apply no_line_feed_app; [now apply no_line_feed_check |].
    apply no_line_feed_app;
      [now apply icao_code_no_line_feed | now apply no_line_feed_check]. }
  assert (M : ~ In LF METAR_TITLE) by now apply no_line_feed_check.
  assert (T : ~ In LF (u8 "--- 預報 (TAF) ---")) by now apply no_line_feed_check.
  assert (N : ~ In LF (@nil codepoint)) by (intros []).
  assert (E : format_reply icao (Some metar) (Some taf)
              = (u8 "✈️ **" ++ icao
                   ++ u8 "** 航空氣象報告 (Aviation Weather Report)")
                  ++ LF :: [] ++ LF :: METAR_TITLE ++ LF :: metar
                  ++ LF :: [] ++ LF :: u8 "--- 預報 (TAF) ---" ++ LF :: taf).
  { unfold format_reply. cbn [truthy]. rewrite Nm, Nt. cbn [orb app join].
    unfold report_header, TAF_TITLE. rewrite <- !app_assoc. reflexivity. }
  rewrite E.
  rewrite (@split_first_line LF _ _ H), (@split_first_line LF _ _ N).
  rewrite (@split_first_line LF _ _ M), (@split_first_line LF _ _ Lm).
  rewrite (@split_first_line LF _ _ N), (@split_first_line LF _ _ T).
  now rewrite (@split_no_sep LF _ Lt).
Qed.

Lemma report_has_seven_lines_witness :
  split LF (format_reply Script.RCTP (Some Script.metar_line) (Some Script.taf_line))
  = [u8 "✈️ **" ++ Script.RCTP ++ u8 "** 航空氣象報告 (Aviation Weather Report)";
     []; METAR_TITLE; Script.metar_line; []; u8 "--- 預報 (TAF) ---";
     Script.taf_line].
Proof.
  exact (@report_has_seven_lines Script.RCTP Script.metar_line Script.taf_line
           (conj eq_refl eq_refl)
           eq_refl (@no_line_feed_check Script.metar_line eq_refl)
           eq_refl (@no_line_feed_check Script.taf_line eq_refl)).
Defined.

End Extras.
